(** * The query and content hooks of the AI Explainer client, and the page shell

    A shallow embedding of [useApiQuery], [useQueryContent] (the hooks file)
    and of the two navigation handlers of [AppShell.tsx] that decide which
    lesson the "Explanation" tab opens.

    The hooks are asynchronous functions that write React state and call
    collaborators that live outside these files (the API client, the offline
    cache, the task tracker, the lesson-progress store).  An asynchronous
    function is embedded as a state transformer that ends in the outcome of
    its promise; what a collaborator answers is read from a record of
    outcomes, and every call made is appended to a log. *)

From Stdlib Require Import ZArith String Ascii List DecimalString.
From stdpp Require Import base option list sorting gmap strings.

Local Open Scope string_scope.
Local Open Scope Z_scope.

(** ** JavaScript values the hooks handle *)

Module Js.

(** What a [catch] clause can receive.  [APIClientError] is the class
    exported by the API client (it carries [statusCode] and, as an [Error],
    [message]); [Error] is any other instance of [Error]; [NotAnError] is a
    thrown value that is no instance of [Error]. *)
Inductive Thrown : Type :=
| APIClientError (statusCode : Z) (message : string)
| Error (message : string)
| NotAnError.

(** How a promise settles. *)
Inductive Outcome (A : Type) : Type :=
| Fulfilled (value : A)
| Rejected (reason : Thrown).
Arguments Fulfilled {A} value.
Arguments Rejected {A} reason.

(** [if (s)] on a string: only the empty string is falsy. *)
Definition truthy (s : string) : bool :=
  match s with
  | EmptyString => false
  | String _ _ => true
  end.

(** [if (x)] on an object that may be [null] or [undefined]. *)
Definition present {A} (x : option A) : bool :=
  match x with
  | Some _ => true
  | None => false
  end.

(** [s.includes(sub)]. *)
Fixpoint includes (s sub : string) : bool :=
  String.prefix sub s ||
  match s with
  | EmptyString => false
  | String _ rest => includes rest sub
  end.

(** A whole number inside a template literal: its decimal digits. *)
Definition numberToString (n : Z) : string :=
  NilZero.string_of_int (Z.to_int n).

End Js.

Import Js.

(** ** Asynchronous code over a store [W] *)

Module Async.

Definition M (W A : Type) : Type := W -> W * Outcome A.

Definition ret {W A} (a : A) : M W A := fun w => (w, Fulfilled a).

Definition bind {W A B} (m : M W A) (k : A -> M W B) : M W B :=
  fun w =>
    match m w with
    | (w', Fulfilled a) => k a w'
    | (w', Rejected e) => (w', Rejected e)
    end.

(** [await p] for a promise that settles as [o]. *)
Definition await {W A} (o : Outcome A) : M W A := fun w => (w, o).

(** [try { m } catch (e) { h e }]. *)
Definition tryCatch {W A} (m : M W A) (h : Thrown -> M W A) : M W A :=
  fun w =>
    match m w with
    | (w', Fulfilled a) => (w', Fulfilled a)
    | (w', Rejected e) => h e w'
    end.

Definition modify {W} (f : W -> W) : M W unit := fun w => (f w, Fulfilled tt).

Definition gets {W A} (f : W -> A) : M W A := fun w => (w, Fulfilled (f w)).

(** [for (const x of xs) body(x)]. *)
Fixpoint forEach {W A} (body : A -> M W unit) (xs : list A) : M W unit :=
  match xs with
  | [] => ret tt
  | x :: rest => bind (body x) (fun _ => forEach body rest)
  end.

End Async.

Import Async.

Declare Scope async_scope.
Delimit Scope async_scope with async.
Notation "x <- m ;; k" := (bind m (fun x => k))
  (at level 100, m at next level, right associativity) : async_scope.
Notation "m ;; k" := (bind m (fun _ => k))
  (at level 100, right associativity) : async_scope.

(** ** The task tracker *)

Module Tracker.

Inductive ContentTaskType : Type :=
| LESSONS | RELATED_QUESTIONS | FLASHCARDS | QUIZ.

Inductive TaskStatus : Type :=
| PENDING | IN_PROGRESS | COMPLETED | FAILED.

#[global] Instance ContentTaskType_eq_dec : EqDecision ContentTaskType.
Proof. solve_decision. Defined.

#[global] Instance TaskStatus_eq_dec : EqDecision TaskStatus.
Proof. solve_decision. Defined.

Definition taskTypeCode (t : ContentTaskType) : positive :=
  match t with
  | LESSONS => 1 | RELATED_QUESTIONS => 2 | FLASHCARDS => 3 | QUIZ => 4
  end%positive.

Definition taskTypeOfCode (p : positive) : option ContentTaskType :=
  match p with
  | 1 => Some LESSONS | 2 => Some RELATED_QUESTIONS
  | 3 => Some FLASHCARDS | 4 => Some QUIZ | _ => None
  end%positive.

#[global] Instance ContentTaskType_countable : Countable ContentTaskType.
Proof.
  apply (inj_countable taskTypeCode taskTypeOfCode).
  by intros [].
Defined.

(** The record [getTaskByType] hands back. *)
Record Task : Type := mkTask {
  status : TaskStatus;
  progressPercent : Z;
  failureReason : option string;
}.

(** The calls the hooks make on the object [useTaskTracker] returns. *)
Inductive TrackerCall : Type :=
| StartTracking (sessionId : string)
| UpdateTaskProgress (type : ContentTaskType) (percent : Z)
| MarkTaskCompleted (type : ContentTaskType)
| MarkTaskFailed (type : ContentTaskType) (reason : string)
| GetTaskByType (type : ContentTaskType)
| ResetTracker.

(** The interface of the object [useTaskTracker] returns, as the hooks use
    it: five commands on the tracker's state and one query. *)
Class TaskTracker (T : Type) : Type := {
  startTracking : string -> T -> T;
  updateTaskProgress : ContentTaskType -> Z -> T -> T;
  markTaskCompleted : ContentTaskType -> T -> T;
  markTaskFailed : ContentTaskType -> string -> T -> T;
  getTaskByType : ContentTaskType -> T -> option Task;
  reset : T -> T;
}.

(** Modelled from the spec: the hook [use-task-tracker] is not among the
    source files.  The spec describes the tracker as a mapping from
    content-task type to a task record with a status, a progress percentage
    and an optional failure reason; records are created by [startTracking],
    changed by the progress, completion and failure calls, and discarded by
    [reset], which gives the initial empty tracker.  A command on a type
    that has no record leaves the tracker as it is. *)
Definition Tasks : Type := gmap ContentTaskType Task.

Definition emptyTasks : Tasks := ∅.

Definition pendingTask : Task := mkTask PENDING 0 None.

Definition tasksStart (_ : string) (_ : Tasks) : Tasks :=
  <[LESSONS := pendingTask]>
    (<[RELATED_QUESTIONS := pendingTask]>
      (<[FLASHCARDS := pendingTask]> (<[QUIZ := pendingTask]> emptyTasks))).

Definition tasksUpdate (t : ContentTaskType) (p : Z) (m : Tasks) : Tasks :=
  alter (fun k => mkTask (status k) p (failureReason k)) t m.

Definition tasksCompleted (t : ContentTaskType) (m : Tasks) : Tasks :=
  alter (fun k => mkTask COMPLETED (progressPercent k) (failureReason k)) t m.

Definition tasksFailed (t : ContentTaskType) (r : string) (m : Tasks) : Tasks :=
  alter (fun k => mkTask FAILED (progressPercent k) (Some r)) t m.

#[global] Instance Tasks_tracker : TaskTracker Tasks := {
  startTracking := tasksStart;
  updateTaskProgress := tasksUpdate;
  markTaskCompleted := tasksCompleted;
  markTaskFailed := tasksFailed;
  getTaskByType t m := m !! t;
  reset _ := emptyTasks;
}.

(** Every content-task type has a record, as after [startTracking]. *)
Definition tracked (m : Tasks) : Prop :=
  forall type, is_Some (getTaskByType type m).

(** [task?.status] *)
Definition statusOf (task : option Task) : option TaskStatus := status <$> task.

End Tracker.

Import Tracker.

(** ** The collaborators the hooks call *)

Module Services.

(** [QueryRequest] *)
Record QueryRequest : Type := mkRequest {
  query : string;
  user_id : option string;
}.

(** What [submitQueryAndWait] resolves to; the payloads may be missing. *)
Record SubmitResult (CR : Type) : Type := mkResult {
  queryId : string;
  lessons : option CR;
  relatedQuestions : option CR;
}.
Arguments mkResult {CR}.
Arguments queryId {CR}.
Arguments lessons {CR}.
Arguments relatedQuestions {CR}.

(** What the API client, the offline manager and the clock answer.  The
    content payload type [CR] ([ContentResponse]) is opaque to the hooks.
    [submitQueryAndWait] gives the progress texts it passes to its callback,
    in order, and then how its promise settles. *)
Record Answers (CR : Type) : Type := mkAnswers {
  getCachedQueryId : string -> Outcome (option string);
  saveQueryMapping : string -> string -> Outcome unit;
  healthCheck : Outcome unit;
  getLessons : string -> Outcome CR;
  getRelatedQuestions : string -> Outcome CR;
  submitQueryAndWait : QueryRequest -> list string * Outcome (SubmitResult CR);
  getFlashcards : string -> Outcome CR;
  getFlashcardsByLesson : string -> Z -> Outcome CR;
  getQuiz : string -> Z -> Outcome CR;
  dateNow : Z;
}.
Arguments getCachedQueryId {CR}.
Arguments saveQueryMapping {CR}.
Arguments healthCheck {CR}.
Arguments getLessons {CR}.
Arguments getRelatedQuestions {CR}.
Arguments submitQueryAndWait {CR}.
Arguments getFlashcards {CR}.
Arguments getFlashcardsByLesson {CR}.
Arguments getQuiz {CR}.
Arguments dateNow {CR}.

(** A call that reaches a collaborator. *)
Inductive Call : Type :=
| GetCachedQueryId (query : string)
| SaveQueryMapping (query id : string)
| HealthCheck
| GetLessons (id : string)
| GetRelatedQuestions (id : string)
| SubmitQueryAndWait (request : QueryRequest)
| GetFlashcards (id : string)
| GetFlashcardsByLesson (id : string) (lessonIndex : Z)
| GetQuiz (id : string) (lessonIndex : Z)
| OnTracker (c : TrackerCall).

Definition isTrackerCall (c : Call) : bool :=
  match c with OnTracker _ => true | _ => false end.

Definition isSubmission (c : Call) : bool :=
  match c with SubmitQueryAndWait _ => true | _ => false end.

End Services.

Import Services.

(** ** [useApiQuery] *)

Module ApiQuery.

Record QueryState (CR : Type) : Type := mkState {
  loading : bool;
  error : option string;
  queryId : option string;
  lessons : option CR;
  relatedQuestions : option CR;
  progress : option string;
}.
Arguments mkState {CR}.
Arguments loading {CR}.
Arguments error {CR}.
Arguments queryId {CR}.
Arguments lessons {CR}.
Arguments relatedQuestions {CR}.
Arguments progress {CR}.

(** The value [useState] starts from. *)
Definition initialState {CR} : QueryState CR :=
  mkState false None None None None None.

(** A chain of [setTimeout] calls: each stage is the delay of its timer and
    the tracker calls its function makes before it sets the timer of the
    stage that follows. *)
Definition Timer : Type := list (Z * list TrackerCall).

(** The store one [submitQuery] runs on: the hook's state, the tracker, the
    calls made so far and the timers set.  A run is followed up to the
    settlement of the promise [submitQuery] returns; the timers it sets are
    recorded and fire after it (they act on FLASHCARDS and QUIZ only). *)
Record World (CR T : Type) : Type := mkWorld {
  state : QueryState CR;
  taskTracker : T;
  calls : list Call;
  timers : list Timer;
}.
Arguments mkWorld {CR T}.
Arguments state {CR T}.
Arguments taskTracker {CR T}.
Arguments calls {CR T}.
Arguments timers {CR T}.

Section Hook.

Context {CR T : Type} `{!TaskTracker T}.
Variable api : Answers CR.

Local Open Scope async_scope.

Local Abbreviation Run := (M (World CR T)).

(** [setState(prev => f prev)] *)
Definition setState (f : QueryState CR -> QueryState CR) : Run unit :=
  modify (fun w => mkWorld (f (state w)) (taskTracker w) (calls w) (timers w)).

Definition called (c : Call) : Run unit :=
  modify (fun w => mkWorld (state w) (taskTracker w) (calls w ++ [c]) (timers w)).

(** A command on [taskTracker]. *)
Definition onTracker (c : TrackerCall) (f : T -> T) : Run unit :=
  modify (fun w =>
    mkWorld (state w) (f (taskTracker w)) (calls w ++ [OnTracker c]) (timers w)).

Definition setTimeout (t : Timer) : Run unit :=
  modify (fun w => mkWorld (state w) (taskTracker w) (calls w) (timers w ++ [t])).

Definition doStartTracking (id : string) : Run unit :=
  onTracker (StartTracking id) (startTracking id).
Definition doUpdateTaskProgress (t : ContentTaskType) (p : Z) : Run unit :=
  onTracker (UpdateTaskProgress t p) (updateTaskProgress t p).
Definition doMarkTaskCompleted (t : ContentTaskType) : Run unit :=
  onTracker (MarkTaskCompleted t) (markTaskCompleted t).
Definition doMarkTaskFailed (t : ContentTaskType) (r : string) : Run unit :=
  onTracker (MarkTaskFailed t r) (markTaskFailed t r).
Definition doReset : Run unit :=
  onTracker ResetTracker reset.
Definition doGetTaskByType (t : ContentTaskType) : Run (option Task) :=
  called (OnTracker (GetTaskByType t)) ;;
  gets (fun w => getTaskByType t (taskTracker w)).

(** [await f(args)] for a collaborator that answers [o]. *)
Definition request {A} (c : Call) (o : Outcome A) : Run A :=
  called c ;; await o.

(** The callback handed to [submitQueryAndWait] (source lines 116-151). *)
Definition onProgress (text : string) : Run unit :=
  setState (fun prev =>
    mkState (loading prev) (error prev) (queryId prev) (lessons prev)
            (relatedQuestions prev) (Some text)) ;;
  if includes text "submitted" then
    doUpdateTaskProgress LESSONS 20 ;;
    doUpdateTaskProgress RELATED_QUESTIONS 10
  else if includes text "Lessons ready" then
    doMarkTaskCompleted LESSONS ;;
    doUpdateTaskProgress RELATED_QUESTIONS 50 ;;
    doUpdateTaskProgress FLASHCARDS 10
  else if includes text "Related questions ready" then
    doMarkTaskCompleted RELATED_QUESTIONS ;;
    lessonsTask <- doGetTaskByType LESSONS ;;
    if decide (statusOf lessonsTask = Some COMPLETED)
    then doUpdateTaskProgress FLASHCARDS 30
    else ret tt
  else if includes text "may take longer" then
    doMarkTaskFailed RELATED_QUESTIONS
      "Related questions are taking longer than expected" ;;
    lessonsTask <- doGetTaskByType LESSONS ;;
    if decide (statusOf lessonsTask = Some COMPLETED)
    then doUpdateTaskProgress FLASHCARDS 30
    else ret tt
  else ret tt.

(** The message the [catch] clause of [submitQuery] derives
    (source lines 208-218). *)
Definition errorMessage (e : Thrown) : string :=
  match e with
  | APIClientError statusCode message =>
      if decide (statusCode = 0)
      then "Connection failed: " +:+ message +:+
           ". Is the backend server running on the correct port?"
      else "Backend error (" +:+ numberToString statusCode +:+ "): " +:+ message
  | Error message => message
  | NotAnError => "An unexpected error occurred"
  end.

(** The [catch] clause of [submitQuery] (source lines 205-229). *)
Definition onError (e : Thrown) : Run unit :=
  setState (fun prev =>
    mkState false (Some (errorMessage e)) (queryId prev) (lessons prev)
            (relatedQuestions prev) None) ;;
  doReset.

(** [status === 'fulfilled' ? value : null] on a settled promise. *)
Definition fulfilledValue {A} (o : Outcome A) : option A :=
  match o with
  | Fulfilled v => Some v
  | Rejected _ => None
  end.

(** The cache-hit branch (source lines 48-81); [true] when it ended the
    function with [return]. *)
Definition loadCached (cachedQueryId : string) : Run bool :=
  setState (fun prev =>
    mkState (loading prev) (error prev) (queryId prev) (lessons prev)
            (relatedQuestions prev)
            (Some "Found cached query, loading content...")) ;;
  tryCatch
    (called (GetLessons cachedQueryId) ;;
     called (GetRelatedQuestions cachedQueryId) ;;
     let lessonsResult := fulfilledValue (getLessons api cachedQueryId) in
     let relatedQuestionsResult :=
       fulfilledValue (getRelatedQuestions api cachedQueryId) in
     match lessonsResult with
     | Some payload =>
         setState (fun prev =>
           mkState false (error prev) (Some cachedQueryId) (Some payload)
                   relatedQuestionsResult (Some "Cached content loaded!")) ;;
         ret true
     | None => ret false
     end)
    (fun cacheError => ret false).

(** The four chained timers of source lines 170-187. *)
Definition flashcardsTimers : Timer :=
  [ (1000, [UpdateTaskProgress FLASHCARDS 80]);
    (2000, [MarkTaskCompleted FLASHCARDS; UpdateTaskProgress QUIZ 30]);
    (1000, [UpdateTaskProgress QUIZ 70]);
    (1500, [MarkTaskCompleted QUIZ]) ].

(** What follows the resolution of [submitQueryAndWait]
    (source lines 155-203). *)
Definition afterSubmission (query : string) (result : SubmitResult CR) : Run unit :=
  (if present (Services.lessons result) &&
      negb (present (Services.relatedQuestions result))
   then
     relatedQuestionsTask <- doGetTaskByType RELATED_QUESTIONS ;;
     if bool_decide (statusOf relatedQuestionsTask ≠ Some COMPLETED) &&
        bool_decide (statusOf relatedQuestionsTask ≠ Some FAILED)
     then doMarkTaskFailed RELATED_QUESTIONS
            "Related questions could not be generated"
     else ret tt
   else ret tt) ;;
  (if present (Services.lessons result)
   then doUpdateTaskProgress FLASHCARDS 50 ;; setTimeout flashcardsTimers
   else ret tt) ;;
  (if truthy (Services.queryId result)
   then request (SaveQueryMapping query (Services.queryId result))
                (saveQueryMapping api query (Services.queryId result))
   else ret tt) ;;
  setState (fun prev =>
    mkState false (error prev) (Some (Services.queryId result))
            (Services.lessons result) (Services.relatedQuestions result)
            (Some "Query completed!")).

(** The fresh submission up to the resolution of [submitQueryAndWait]
    (source lines 83-151). *)
Definition awaitSubmission (query : string) (userId : option string)
  : Run (SubmitResult CR) :=
  setState (fun prev =>
    mkState (loading prev) (error prev) (queryId prev) (lessons prev)
            (relatedQuestions prev) (Some "Checking backend connection...")) ;;
  tryCatch
    (request HealthCheck (healthCheck api))
    (fun healthError =>
       setState (fun prev =>
         mkState (loading prev) (error prev) (queryId prev) (lessons prev)
                 (relatedQuestions prev)
                 (Some "Backend connection failed. Is the server running?"))) ;;
  let req := mkRequest query userId in
  setState (fun prev =>
    mkState (loading prev) (error prev) (queryId prev) (lessons prev)
            (relatedQuestions prev) (Some "Submitting new query to backend...")) ;;
  doStartTracking ("query-" +:+ numberToString (dateNow api)) ;;
  called (SubmitQueryAndWait req) ;;
  forEach onProgress (fst (submitQueryAndWait api req)) ;;
  await (snd (submitQueryAndWait api req)).

(** The [try] block up to the point where either the cached content was
    committed and the function returned ([None]) or [submitQueryAndWait]
    resolved with a result (source lines 44-151). *)
Definition untilResolved (query : string) (userId : option string)
  : Run (option (SubmitResult CR)) :=
  cachedQueryId <- request (GetCachedQueryId query) (getCachedQueryId api query) ;;
  returned <- match cachedQueryId with
              | Some id => if truthy id then loadCached id else ret false
              | None => ret false
              end ;;
  if (returned : bool) then ret None
  else (result <- awaitSubmission query userId ;; ret (Some result)).

(** The [try] block (source lines 44-204). *)
Definition tryBlock (query : string) (userId : option string) : Run unit :=
  resolved <- untilResolved query userId ;;
  match resolved with
  | None => ret tt
  | Some result => afterSubmission query result
  end.

(** The first write of [submitQuery] (source lines 37-42). *)
Definition markLoading : Run unit :=
  setState (fun prev =>
    mkState true None (queryId prev) (lessons prev) (relatedQuestions prev)
            (Some "Checking for cached query...")).

(** [submitQuery] (source lines 36-230). *)
Definition submitQuery (query : string) (userId : option string) : Run unit :=
  markLoading ;;
  tryCatch (tryBlock query userId) onError.

(** The world and the outcome at the end of the [try] block, before the
    [catch] clause gets its turn. *)
Definition atCatch (query : string) (userId : option string)
  : Run unit :=
  markLoading ;; tryBlock query userId.

(** The world and the outcome at the point [untilResolved] ends. *)
Definition atResolution (query : string) (userId : option string)
  : Run (option (SubmitResult CR)) :=
  markLoading ;; untilResolved query userId.

(** [clearError] and [reset] (source lines 232-249). *)
Definition clearError : Run unit :=
  setState (fun prev =>
    mkState (loading prev) None (queryId prev) (lessons prev)
            (relatedQuestions prev) (progress prev)).

Definition resetHook : Run unit :=
  setState (fun _ => initialState) ;;
  doReset.

End Hook.

(** Two worlds agree on the state cells that only the first write and the
    two terminal writes of [submitQuery] touch. *)
Definition keeps {CR T} (w w' : World CR T) : Prop :=
  loading (state w') = loading (state w) /\
  error (state w') = error (state w) /\
  queryId (state w') = queryId (state w) /\
  lessons (state w') = lessons (state w) /\
  relatedQuestions (state w') = relatedQuestions (state w).

(** The derivation of the user-facing message as the spec words it: a
    classified API-client error with status code 0, one with another status
    code, any other error with a message, and the fallback. *)
Inductive Derived : Thrown -> string -> Prop :=
| DerivedConnection (detail : string) :
    Derived (APIClientError 0 detail)
      ("Connection failed: " +:+ detail +:+
       ". Is the backend server running on the correct port?")
| DerivedBackend (code : Z) (detail : string) :
    code <> 0 ->
    Derived (APIClientError code detail)
      ("Backend error (" +:+ numberToString code +:+ "): " +:+ detail)
| DerivedGeneric (message : string) :
    Derived (Error message) message
| DerivedFallback :
    Derived NotAnError "An unexpected error occurred".

End ApiQuery.

(** ** [useQueryContent] *)

Module QueryContent.

(** What one call does, in order: writes of the two state cells and calls
    to the API client. *)
Inductive Event : Type :=
| SetLoading (value : bool)
| SetError (value : option string)
| Called (c : Call).

Record World : Type := mkWorld {
  loading : bool;
  error : option string;
  events : list Event;
}.

Section Hook.

Context {CR : Type}.
Variable api : Answers CR.

Local Open Scope async_scope.

Local Abbreviation Run := (M World).

Definition setLoading (b : bool) : Run unit :=
  modify (fun w => mkWorld b (error w) (events w ++ [SetLoading b])).

Definition setError (e : option string) : Run unit :=
  modify (fun w => mkWorld (loading w) e (events w ++ [SetError e])).

Definition request {A} (c : Call) (o : Outcome A) : Run A :=
  modify (fun w => mkWorld (loading w) (error w) (events w ++ [Called c])) ;;
  await o.

(** The message both [catch] clauses derive, from their own fallback
    (source lines 283-289 and 306-312). *)
Definition errorMessage (fallback : string) (e : Thrown) : string :=
  match e with
  | APIClientError _ message => message
  | Error message => message
  | NotAnError => fallback
  end.

(** [getFlashcards] (source lines 272-295). *)
Definition getFlashcards (queryId : string) (lessonIndex : option Z)
  : Run (option CR) :=
  setLoading true ;;
  setError None ;;
  tryCatch
    (flashcards <-
       match lessonIndex with
       | Some index =>
           request (GetFlashcardsByLesson queryId index)
                   (getFlashcardsByLesson api queryId index)
       | None =>
           request (GetFlashcards queryId) (Services.getFlashcards api queryId)
       end ;;
     setLoading false ;;
     ret (Some flashcards))
    (fun e =>
       setError (Some (errorMessage "Failed to get flashcards" e)) ;;
       setLoading false ;;
       ret None).

(** [getQuiz] (source lines 297-318); a missing [lessonIndex] takes the
    parameter's default. *)
Definition getQuiz (queryId : string) (lessonIndex : option Z)
  : Run (option CR) :=
  let lessonIndex := default 0 lessonIndex in
  setLoading true ;;
  setError None ;;
  tryCatch
    (quiz <- request (GetQuiz queryId lessonIndex)
                     (Services.getQuiz api queryId lessonIndex) ;;
     setLoading false ;;
     ret (Some quiz))
    (fun e =>
       setError (Some (errorMessage "Failed to get quiz" e)) ;;
       setLoading false ;;
       ret None).

End Hook.

End QueryContent.

(** ** The page shell: which lesson the "Explanation" tab opens *)

Module AppShell.

Inductive AppState : Type :=
| home | explanation | flashcards | quiz | explore | library | lessons.

(** Modelled from the spec: the hook [use-lesson-progress] and its entry
    type are not among the source files.  The spec gives an entry a topic,
    a query id and a creation date; [createdAt] holds the number
    [new Date(entry.createdAt).getTime()] the shell compares entries by. *)
Record LessonProgress : Type := mkLesson {
  topic : string;
  queryId : string;
  createdAt : Z;
}.

(** The state cells the two handlers read or write, with the array
    [useLessonProgress] hands out: [sort] reorders that array itself. *)
Record Shell : Type := mkShell {
  currentState : AppState;
  currentTopic : string;
  currentStepIndex : Z;
  isUserQuery : bool;
  lessonProgressList : list LessonProgress;
}.

(** [array.sort(compare)]: a stable sort; an element stays in front of a
    later one unless [compare] is positive on the pair. *)
Fixpoint insertBy {A} (compare : A -> A -> Z) (x : A) (sorted : list A) : list A :=
  match sorted with
  | [] => [x]
  | y :: rest =>
      if decide (compare x y <= 0) then x :: y :: rest
      else y :: insertBy compare x rest
  end.

Definition sort {A} (compare : A -> A -> Z) (l : list A) : list A :=
  foldr (insertBy compare) [] l.

(** [list.find(p)] *)
Fixpoint find {A} (p : A -> bool) (l : list A) : option A :=
  match l with
  | [] => None
  | x :: rest => if p x then Some x else find p rest
  end.

Section Handlers.

(** What [getLastAccessedLesson] of the lesson-progress store answers. *)
Variable getLastAccessedLesson : string -> Outcome Z.

Local Open Scope async_scope.

Local Abbreviation Run := (M Shell).

Definition setCurrentState (v : AppState) : Run unit :=
  modify (fun s => mkShell v (currentTopic s) (currentStepIndex s)
                           (isUserQuery s) (lessonProgressList s)).
Definition setCurrentTopic (t : string) : Run unit :=
  modify (fun s => mkShell (currentState s) t (currentStepIndex s)
                           (isUserQuery s) (lessonProgressList s)).
Definition setCurrentStepIndex (i : Z) : Run unit :=
  modify (fun s => mkShell (currentState s) (currentTopic s) i
                           (isUserQuery s) (lessonProgressList s)).
Definition setIsUserQuery (b : bool) : Run unit :=
  modify (fun s => mkShell (currentState s) (currentTopic s)
                           (currentStepIndex s) b (lessonProgressList s)).
Definition sortLessonProgressList (compare : LessonProgress -> LessonProgress -> Z)
  : Run (list LessonProgress) :=
  modify (fun s => mkShell (currentState s) (currentTopic s) (currentStepIndex s)
                           (isUserQuery s) (sort compare (lessonProgressList s))) ;;
  gets lessonProgressList.

(** [handleStartExploration] (source lines 22-39); the function does not
    use its second parameter, [category]. *)
Definition handleStartExploration (topic' : string) (category : option string)
    (fromLessonContinue : option bool) : Run unit :=
  let fromLessonContinue := default false fromLessonContinue in
  setCurrentTopic topic' ;;
  list <- gets lessonProgressList ;;
  (match find (fun lesson => bool_decide (topic lesson = topic')) list with
   | Some existingLesson =>
       lastAccessedLesson <- await (getLastAccessedLesson (queryId existingLesson)) ;;
       setCurrentStepIndex lastAccessedLesson ;;
       setIsUserQuery true
   | None =>
       setCurrentStepIndex 0 ;;
       setIsUserQuery (negb fromLessonContinue)
   end) ;;
  setCurrentState explanation.

(** [handleShowExplanation] (source lines 61-83). *)
Definition handleShowExplanation : Run unit :=
  topicNow <- gets currentTopic ;;
  if truthy topicNow then setCurrentState explanation
  else
    list <- gets lessonProgressList ;;
    if decide (0 < Z.of_nat (length list)) then
      sorted <- sortLessonProgressList
                  (fun a b => createdAt b - createdAt a) ;;
      match sorted with
      | mostRecentLesson :: _ =>
          handleStartExploration (topic mostRecentLesson) None (Some true)
      | [] => await (Rejected (Error "Cannot read properties of undefined"))
      end
    else setCurrentState home.

End Handlers.

End AppShell.

(** ** Collaborator answers used to run the hooks on concrete inputs *)

Module Scenario.

Import ApiQuery.

(** Payloads are opaque to the hooks; here they are named by strings. *)
Definition lessonsPayload : string := "lessons of photosynthesis".
Definition relatedPayload : string := "related questions".

(** A backend with no cache entry where everything succeeds: the
    submission reports two progress texts and resolves with lessons but
    without related questions. *)
Definition fresh : Answers string :=
  mkAnswers string
    (fun _ => Fulfilled None)
    (fun _ _ => Fulfilled tt)
    (Fulfilled tt)
    (fun _ => Fulfilled lessonsPayload)
    (fun _ => Fulfilled relatedPayload)
    (fun _ => (["Query submitted"; "Lessons ready"],
               Fulfilled (mkResult "q1" (Some lessonsPayload) None)))
    (fun _ => Fulfilled "flashcards")
    (fun _ _ => Fulfilled "flashcards of one lesson")
    (fun _ _ => Fulfilled "quiz")
    1700000000000.

(** The same backend with the query already in the cache under ["q7"];
    the related questions of ["q7"] cannot be fetched. *)
Definition cached : Answers string :=
  mkAnswers string
    (fun _ => Fulfilled (Some "q7"))
    (saveQueryMapping fresh) (healthCheck fresh) (getLessons fresh)
    (fun _ => Rejected (APIClientError 404 "Not Found"))
    (submitQueryAndWait fresh) (getFlashcards fresh)
    (getFlashcardsByLesson fresh) (getQuiz fresh) (dateNow fresh).

(** The same backend with an offline cache that answers the empty string. *)
Definition emptyId : Answers string :=
  mkAnswers string
    (fun _ => Fulfilled (Some ""))
    (saveQueryMapping fresh) (healthCheck fresh) (getLessons fresh)
    (getRelatedQuestions fresh) (submitQueryAndWait fresh) (getFlashcards fresh)
    (getFlashcardsByLesson fresh) (getQuiz fresh) (dateNow fresh).

(** The same backend with an offline cache whose lookup throws. *)
Definition probeThrows : Answers string :=
  mkAnswers string
    (fun _ => Rejected (Error "IndexedDB is not available"))
    (saveQueryMapping fresh) (healthCheck fresh) (getLessons fresh)
    (getRelatedQuestions fresh) (submitQueryAndWait fresh) (getFlashcards fresh)
    (getFlashcardsByLesson fresh) (getQuiz fresh) (dateNow fresh).

(** The same backend with an offline cache that cannot store a mapping. *)
Definition saveThrows : Answers string :=
  mkAnswers string
    (getCachedQueryId fresh)
    (fun _ _ => Rejected (Error "QuotaExceededError"))
    (healthCheck fresh) (getLessons fresh)
    (getRelatedQuestions fresh) (submitQueryAndWait fresh) (getFlashcards fresh)
    (getFlashcardsByLesson fresh) (getQuiz fresh) (dateNow fresh).

(** A backend that cannot be reached: the health check and the submission
    fail with status code 0. *)
Definition unreachable : Answers string :=
  mkAnswers string
    (getCachedQueryId fresh) (saveQueryMapping fresh)
    (Rejected (APIClientError 0 "ECONNREFUSED"))
    (fun _ => Rejected (APIClientError 0 "ECONNREFUSED"))
    (fun _ => Rejected (APIClientError 0 "ECONNREFUSED"))
    (fun _ => ([], Rejected (APIClientError 0 "ECONNREFUSED")))
    (fun _ => Rejected (APIClientError 0 "ECONNREFUSED"))
    (fun _ _ => Rejected (APIClientError 0 "ECONNREFUSED"))
    (fun _ _ => Rejected (Error "Failed to fetch"))
    (dateNow fresh).

(** The hook before its first call, with the spec's tracker. *)
Definition idle : World string Tasks :=
  mkWorld initialState emptyTasks [] [].

(** The hook while a submission is under way, right after
    [startTracking]. *)
Definition submitting : World string Tasks :=
  mkWorld
    (mkState true None None None None (Some "Submitting new query to backend..."))
    (tasksStart "query-1700000000000" emptyTasks) [] [].

(** A shell on the home page with no topic chosen and two lessons begun;
    the lesson on tides is the more recent one and was left at step 3. *)
Definition atHome : AppShell.Shell :=
  AppShell.mkShell AppShell.home "" 0 true
    [ AppShell.mkLesson "photosynthesis" "q1" 1700000000000;
      AppShell.mkLesson "tides" "q2" 1700000500000 ].

Definition lastAccessed (queryId : string) : Outcome Z :=
  if String.eqb queryId "q2" then Fulfilled 3 else Fulfilled 0.

End Scenario.

(** ** Vocabulary for the runs of [submitQuery] *)

Module ApiQueryRuns.

Import ApiQuery.

(** How many of the calls in a log satisfy [f]. *)
Fixpoint count (f : Call -> bool) (cs : list Call) : nat :=
  match cs with
  | [] => 0%nat
  | c :: rest => ((if f c then 1 else 0) + count f rest)%nat
  end.

Definition isSave (c : Call) : bool :=
  match c with SaveQueryMapping _ _ => true | _ => false end.

(** Not a function of the source: whether the answers of the offline cache
    and of [getLessons] are those on which the cached branch of
    [submitQuery] returns (source lines 48-76). *)
Definition served {CR} (api : Answers CR) (query : string) : bool :=
  match getCachedQueryId api query with
  | Fulfilled (Some id) =>
      truthy id && present (fulfilledValue (getLessons api id))
  | _ => false
  end.

(** Not a function of the source: the failure, if any, that the answers of
    the collaborators make the [catch] clause of [submitQuery] receive.  The
    answers of [getLessons], [getRelatedQuestions] and [healthCheck] can
    only enter through [served]. *)
Definition failure {CR} (api : Answers CR) (query : string)
    (userId : option string) : option Thrown :=
  match getCachedQueryId api query with
  | Rejected e => Some e
  | Fulfilled _ =>
      if served api query then None
      else
        match snd (submitQueryAndWait api (mkRequest query userId)) with
        | Rejected e => Some e
        | Fulfilled result =>
            if truthy (Services.queryId result) then
              match saveQueryMapping api query (Services.queryId result) with
              | Rejected e => Some e
              | Fulfilled _ => None
              end
            else None
        end
  end.

(** The same collaborators with another answer of the health check. *)
Definition withHealthCheck {CR} (answer : Outcome unit) (api : Answers CR)
  : Answers CR :=
  mkAnswers CR (getCachedQueryId api) (saveQueryMapping api) answer
    (getLessons api) (getRelatedQuestions api) (submitQueryAndWait api)
    (getFlashcards api) (getFlashcardsByLesson api) (getQuiz api) (dateNow api).

End ApiQueryRuns.

(** ** The page shell: the other handlers and the page switch *)

Module AppShellPages.

Import AppShell.

(** The shell with its two other state cells, whose values the shell only
    passes on ([any] in the source), and with the calls made to
    [markLessonAccessed] of the lesson-progress store. *)
Record Pages (E F : Type) : Type := mkPages {
  shell : Shell;
  currentExplanation : option E;
  currentFlashcards : list F;
  accessed : list (string * Z);
}.
Arguments mkPages {E F}.
Arguments shell {E F}.
Arguments currentExplanation {E F}.
Arguments currentFlashcards {E F}.
Arguments accessed {E F}.

Section Handlers.

Context {E F : Type}.

(** What the lesson-progress store answers. *)
Variable getLastAccessedLesson : string -> Outcome Z.
Variable markLessonAccessed : string -> Z -> Outcome unit.

Local Open Scope async_scope.

Local Abbreviation Run := (M (Pages E F)).

(** A handler that touches the cells of [Shell] only. *)
Definition onShell {A} (m : M Shell A) : Run A :=
  fun p =>
    let (s, o) := m (shell p) in
    (mkPages s (currentExplanation p) (currentFlashcards p) (accessed p), o).

Definition setCurrentExplanation (e : option E) : Run unit :=
  modify (fun p => mkPages (shell p) e (currentFlashcards p) (accessed p)).

Definition setCurrentFlashcards (fs : list F) : Run unit :=
  modify (fun p => mkPages (shell p) (currentExplanation p) fs (accessed p)).

(** [await markLessonAccessed(queryId, index)] *)
Definition doMarkLessonAccessed (id : string) (index : Z) : Run unit :=
  modify (fun p => mkPages (shell p) (currentExplanation p) (currentFlashcards p)
                           (accessed p ++ [(id, index)])) ;;
  await (markLessonAccessed id index).

(** Source lines 41-59. *)
Definition handleBackToHome : Run unit :=
  onShell (setCurrentState home) ;;
  onShell (setCurrentTopic "") ;;
  setCurrentExplanation None ;;
  setCurrentFlashcards [] ;;
  onShell (setCurrentStepIndex 0).

Definition handleShowLibrary : Run unit := onShell (setCurrentState library).
Definition handleShowExplore : Run unit := onShell (setCurrentState explore).
Definition handleShowLessons : Run unit := onShell (setCurrentState lessons).

(** Source lines 22-39 and 61-83, on the whole shell. *)
Definition handleStartExploration (topic' : string) (category : option string)
    (fromLessonContinue : option bool) : Run unit :=
  onShell (AppShell.handleStartExploration getLastAccessedLesson topic'
             category fromLessonContinue).

Definition handleShowExplanation : Run unit :=
  onShell (AppShell.handleShowExplanation getLastAccessedLesson).

(** Source lines 85-101. *)
Definition handleGenerateFlashcards (explanation' : option E) : Run unit :=
  setCurrentExplanation explanation' ;;
  onShell (setCurrentState flashcards).

Definition handleStartQuiz (flashcards' : list F) : Run unit :=
  setCurrentFlashcards flashcards' ;;
  onShell (setCurrentState quiz).

Definition handleBackToExplanation : Run unit := onShell (setCurrentState explanation).
Definition handleBackToFlashcards : Run unit := onShell (setCurrentState flashcards).

(** The tail both step handlers share (source lines 111-115 and 124-128). *)
Definition trackLessonAccess (index : Z) : Run unit :=
  list <- onShell (gets lessonProgressList) ;;
  topicNow <- onShell (gets currentTopic) ;;
  match find (fun lesson => bool_decide (topic lesson = topicNow)) list with
  | Some existingLesson => doMarkLessonAccessed (queryId existingLesson) index
  | None => ret tt
  end.

(** [handleNextStep] (source lines 103-116). *)
Definition handleNextStep : Run unit :=
  stepNow <- onShell (gets currentStepIndex) ;;
  let nextStepIndex := stepNow + 1 in
  onShell (setCurrentStepIndex nextStepIndex) ;;
  onShell (setCurrentState explanation) ;;
  setCurrentFlashcards [] ;;
  trackLessonAccess nextStepIndex.

(** [handleStepNavigation] (source lines 118-129). *)
Definition handleStepNavigation (stepIndex : Z) : Run unit :=
  onShell (setCurrentStepIndex stepIndex) ;;
  onShell (setCurrentState explanation) ;;
  setCurrentExplanation None ;;
  setCurrentFlashcards [] ;;
  trackLessonAccess stepIndex.

End Handlers.

(** The handlers of the shell, as the page switch hands them out. *)
Inductive Handler : Type :=
| StartExploration | BackToHome | ShowLibrary | ShowExplore | ShowLessons
| ShowExplanation | GenerateFlashcards | StartQuiz | BackToExplanation
| BackToFlashcards | NextStep | StepNavigation.

Inductive PageComponent : Type :=
| HomePage | ExplorePage | MyLibraryPage | MyLessonsPage | ExplanationPage
| FlashcardsPage | QuizPage.

(** The [switch] on [currentState] (source lines 131-215): the page drawn
    and the handler behind each of its callback props.  The [default] case
    of the source is not reached by a value of [AppState]. *)
Definition render (v : AppState) : PageComponent * list (string * Handler) :=
  match v with
  | home =>
      (HomePage,
       [("onStartExploration", StartExploration); ("onShowLibrary", ShowLibrary);
        ("onShowExplore", ShowExplore); ("onShowLessons", ShowLessons);
        ("onShowExplanation", ShowExplanation)])
  | explore =>
      (ExplorePage,
       [("onBack", BackToHome); ("onStartExploration", StartExploration);
        ("onShowLibrary", ShowLibrary); ("onShowLessons", ShowLessons);
        ("onShowExplanation", ShowExplanation)])
  | library =>
      (MyLibraryPage,
       [("onBack", BackToHome); ("onStartExploration", StartExploration);
        ("onShowExplore", ShowExplore); ("onShowLessons", ShowLessons);
        ("onShowExplanation", ShowExplanation)])
  | lessons =>
      (MyLessonsPage,
       [("onBack", BackToHome); ("onStartExploration", StartExploration);
        ("onShowExplore", ShowExplore); ("onShowLibrary", ShowLibrary);
        ("onShowExplanation", ShowExplanation)])
  | explanation =>
      (ExplanationPage,
       [("onBack", BackToHome); ("onGenerateFlashcards", GenerateFlashcards);
        ("onShowLibrary", ShowLibrary); ("onShowExplore", ShowExplore);
        ("onShowLessons", ShowLessons); ("onStepNavigation", StepNavigation)])
  | flashcards =>
      (FlashcardsPage,
       [("onBack", BackToExplanation); ("onStartQuiz", StartQuiz);
        ("onShowLibrary", ShowLibrary)])
  | quiz =>
      (QuizPage,
       [("onBack", BackToFlashcards); ("onReturnHome", BackToHome);
        ("onNextStep", NextStep); ("onShowLibrary", ShowLibrary)])
  end.

(** One step of navigation: a handler the current page was given is run
    with some arguments. *)
Inductive Press (E F : Type) : Type :=
| PressStartExploration (topic' : string) (category : option string)
    (fromLessonContinue : option bool)
| PressBackToHome | PressShowLibrary | PressShowExplore | PressShowLessons
| PressShowExplanation
| PressGenerateFlashcards (explanation' : option E)
| PressStartQuiz (flashcards' : list F)
| PressBackToExplanation | PressBackToFlashcards | PressNextStep
| PressStepNavigation (stepIndex : Z).
Arguments PressStartExploration {E F}.
Arguments PressBackToHome {E F}.
Arguments PressShowLibrary {E F}.
Arguments PressShowExplore {E F}.
Arguments PressShowLessons {E F}.
Arguments PressShowExplanation {E F}.
Arguments PressGenerateFlashcards {E F}.
Arguments PressStartQuiz {E F}.
Arguments PressBackToExplanation {E F}.
Arguments PressBackToFlashcards {E F}.
Arguments PressNextStep {E F}.
Arguments PressStepNavigation {E F}.

Definition handlerOf {E F} (press : Press E F) : Handler :=
  match press with
  | PressStartExploration _ _ _ => StartExploration
  | PressBackToHome => BackToHome
  | PressShowLibrary => ShowLibrary
  | PressShowExplore => ShowExplore
  | PressShowLessons => ShowLessons
  | PressShowExplanation => ShowExplanation
  | PressGenerateFlashcards _ => GenerateFlashcards
  | PressStartQuiz _ => StartQuiz
  | PressBackToExplanation => BackToExplanation
  | PressBackToFlashcards => BackToFlashcards
  | PressNextStep => NextStep
  | PressStepNavigation _ => StepNavigation
  end.

Definition run {E F} (getLastAccessedLesson : string -> Outcome Z)
    (markLessonAccessed : string -> Z -> Outcome unit) (press : Press E F)
  : M (Pages E F) unit :=
  match press with
  | PressStartExploration t c f =>
      handleStartExploration getLastAccessedLesson t c f
  | PressBackToHome => handleBackToHome
  | PressShowLibrary => handleShowLibrary
  | PressShowExplore => handleShowExplore
  | PressShowLessons => handleShowLessons
  | PressShowExplanation => handleShowExplanation getLastAccessedLesson
  | PressGenerateFlashcards e => handleGenerateFlashcards e
  | PressStartQuiz fs => handleStartQuiz fs
  | PressBackToExplanation => handleBackToExplanation
  | PressBackToFlashcards => handleBackToFlashcards
  | PressNextStep => handleNextStep markLessonAccessed
  | PressStepNavigation i => handleStepNavigation markLessonAccessed i
  end.

(** Whether the page drawn for view [v] was given the handler of [press]. *)
Definition offered {E F} (v : AppState) (press : Press E F) : Prop :=
  exists prop, In (prop, handlerOf press) (snd (render v)).

End AppShellPages.

(** ** The navigation bar *)

Module Navbar.

Record NavItem : Type := mkItem { id : string; label : string }.

Definition navItems : list NavItem :=
  [ mkItem "home" "Home"; mkItem "explanation" "Explanation";
    mkItem "explore" "Explore"; mkItem "lessons" "My Lessons";
    mkItem "library" "My Library" ].

(** One button of the bar: its key, class, title, text, whether the hint
    box is drawn under it, and the page its click passes to [onNavigate]. *)
Record NavButton : Type := mkButton {
  key : string;
  className : string;
  title : option string;
  text : string;
  hint : option string;
  click : string;
}.

Inductive Icon : Type := Wifi | WifiOff.

(** [Navbar] (source lines 336-401) for the props [currentPage] and
    [isOnline], each of which may be left out: the buttons, in order, and
    the connection icon. *)
Definition Navbar (currentPage : option string) (isOnline : option bool)
  : list NavButton * Icon :=
  let currentPage := default "home" currentPage in
  let isOnline := default true isOnline in
  (map (fun item =>
          mkButton (id item)
            ((if String.eqb currentPage (id item)
              then "text-gray-900 font-medium"
              else "text-gray-500 hover:text-gray-900")
             +:+ " transition-colors relative group")
            (if String.eqb (id item) "explanation"
             then Some "Continue your most recent lesson" else None)
            (label item)
            (if String.eqb (id item) "explanation"
             then Some "Continue most recent lesson" else None)
            (id item))
       navItems,
   if isOnline then Wifi else WifiOff).

(** The button is the one drawn as the current page. *)
Definition highlighted (b : NavButton) : bool :=
  String.prefix "text-gray-900 font-medium" (className b).

End Navbar.

(** ** More collaborator answers to run the hooks on *)

Module ScenarioMore.

Import ApiQuery Scenario.

(** A backend whose submission resolves with an id and no content. *)
Definition noContent : Answers string :=
  mkAnswers string
    (getCachedQueryId fresh) (saveQueryMapping fresh) (healthCheck fresh)
    (getLessons fresh) (getRelatedQuestions fresh)
    (fun _ => (["Query submitted"], Fulfilled (mkResult "q2" None None)))
    (getFlashcards fresh) (getFlashcardsByLesson fresh) (getQuiz fresh)
    (dateNow fresh).

(** A backend that reports the related questions as late before it resolves
    with lessons only. *)
Definition lateRelated : Answers string :=
  mkAnswers string
    (getCachedQueryId fresh) (saveQueryMapping fresh) (healthCheck fresh)
    (getLessons fresh) (getRelatedQuestions fresh)
    (fun _ => (["Query submitted"; "Lessons ready";
                "Related questions may take longer"],
               Fulfilled (mkResult "q3" (Some lessonsPayload) None)))
    (getFlashcards fresh) (getFlashcardsByLesson fresh) (getQuiz fresh)
    (dateNow fresh).

(** The shell of [atHome] with its other cells, on the quiz page of the
    lesson on tides at step 3. *)
Definition inQuiz : AppShellPages.Pages string string :=
  AppShellPages.mkPages
    (AppShell.mkShell AppShell.quiz "tides" 3 true
       (AppShell.lessonProgressList atHome))
    (Some "explanation of tides") ["card 1"; "card 2"] [].

End ScenarioMore.

(** * Properties *)

(** ** JavaScript helpers *)

Section JsFacts.

Lemma truthy_nonempty (s : string) : s <> "" -> truthy s = true.
Proof. destruct s; [congruence | reflexivity]. Qed.

Lemma prefix_app (sub rest : string) : String.prefix sub (sub +:+ rest) = true.
Proof.
  induction sub as [| c sub IH]; simpl.
  - by destruct rest.
  - destruct (ascii_dec c c); [exact IH | congruence].
Qed.

Lemma prefix_split (sub s : string) :
  String.prefix sub s = true -> exists rest, s = sub +:+ rest.
Proof.
  revert s. induction sub as [| c sub IH]; intros s Hp.
  - by exists s.
  - destruct s as [| d s]; simpl in Hp; [discriminate |].
    destruct (ascii_dec c d) as [-> |]; [| discriminate].
    destruct (IH s Hp) as [rest ->]. by exists rest.
Qed.

(** [includes] holds exactly of the texts that have [sub] somewhere
    inside. *)
Lemma includes_spec (s sub : string) :
  includes s sub = true <-> exists before after, s = before +:+ sub +:+ after.
Proof.
  split.
  - induction s as [| c s IH]; cbn [includes]; intros Hi.
    + rewrite orb_false_r in Hi. destruct (prefix_split _ _ Hi) as [rest ->].
      by exists "", rest.
    + apply orb_true_iff in Hi as [Hp | Hi].
      * destruct (prefix_split _ _ Hp) as [rest ->]. by exists "", rest.
      * destruct (IH Hi) as (before & after & ->).
        by exists (String c before), after.
  - intros (before & after & ->).
    induction before as [| c before IH].
    + change ("" +:+ sub +:+ after) with (sub +:+ after).
      destruct (sub +:+ after) eqn:E; cbn [includes];
        rewrite <- E, prefix_app; reflexivity.
    + change (String c before +:+ sub +:+ after)
        with (String c (before +:+ sub +:+ after)).
      cbn [includes]. rewrite IH. apply orb_true_r.
Qed.

End JsFacts.

(** ** [useApiQuery]: the cached path *)

Section CachedPath.

Import ApiQuery.

Context {CR T : Type} `{!TaskTracker T}.
Variable api : Answers CR.

(** The whole run when the cache has the query and its lessons load. *)
Lemma submitQuery_cached (query : string) (userId : option string)
    (w : World CR T) (id : string) (payload : CR) :
  getCachedQueryId api query = Fulfilled (Some id) ->
  truthy id = true ->
  getLessons api id = Fulfilled payload ->
  submitQuery api query userId w =
    (mkWorld
       (mkState false None (Some id) (Some payload)
          (fulfilledValue (getRelatedQuestions api id))
          (Some "Cached content loaded!"))
       (taskTracker w)
       (calls w ++ [GetCachedQueryId query; GetLessons id; GetRelatedQuestions id])
       (timers w),
     Fulfilled tt).
Proof.
  intros Hprobe Hid Hlessons.
  unfold submitQuery, markLoading, tryBlock, untilResolved, request, called,
    setState, bind, tryCatch, modify, await.
  rewrite Hprobe, Hid.
  unfold loadCached, called, setState, bind, tryCatch, modify, ret.
  rewrite Hlessons. cbn.
  by rewrite <- !app_assoc.
Qed.

(** The whole run when the lookup in the offline cache throws. *)
Lemma submitQuery_probe_throws (query : string) (userId : option string)
    (w : World CR T) (e : Thrown) :
  getCachedQueryId api query = Rejected e ->
  submitQuery api query userId w =
    (mkWorld
       (mkState false (Some (errorMessage e)) (queryId (state w))
          (lessons (state w)) (relatedQuestions (state w)) None)
       (reset (taskTracker w))
       (calls w ++ [GetCachedQueryId query; OnTracker ResetTracker])
       (timers w),
     Fulfilled tt).
Proof.
  intros Hprobe.
  unfold submitQuery, markLoading, tryBlock, untilResolved, request, called,
    setState, bind, tryCatch, modify, await.
  rewrite Hprobe.
  unfold onError, doReset, onTracker, setState, bind, modify. cbn.
  by rewrite <- !app_assoc.
Qed.

End CachedPath.

(** ** [useApiQuery]: what every run keeps *)

Section Frames.

Import ApiQuery.

Context {CR T : Type} `{!TaskTracker T}.
Variable api : Answers CR.

Lemma keeps_refl (w : World CR T) : keeps w w.
Proof. by repeat split. Qed.

Lemma keeps_trans (w1 w2 w3 : World CR T) :
  keeps w1 w2 -> keeps w2 w3 -> keeps w1 w3.
Proof.
  intros (?&?&?&?&?) (?&?&?&?&?). repeat split; congruence.
Qed.

Lemma onProgress_runs (text : string) (w : World CR T) :
  (onProgress text w).2 = Fulfilled tt /\ keeps w (onProgress text w).1.
Proof.
  unfold onProgress, doUpdateTaskProgress, doMarkTaskCompleted,
    doMarkTaskFailed, doGetTaskByType, onTracker, called, setState, bind,
    modify, gets, ret.
  cbn.
  repeat (match goal with
          | |- context [if includes ?s ?k then _ else _] =>
              destruct (includes s k)
          | |- context [decide ?P] => destruct (decide P)
          end; cbn);
    by repeat split.
Qed.

Lemma forEach_onProgress_runs (texts : list string) (w : World CR T) :
  (forEach onProgress texts w).2 = Fulfilled tt /\
  keeps w (forEach onProgress texts w).1.
Proof.
  revert w. induction texts as [| text texts IH]; intros w; cbn.
  - split; [done | apply keeps_refl].
  - unfold bind.
    destruct (onProgress_runs text w) as [Hout Hkeep].
    destruct (onProgress text w) as [w1 o]; cbn in *; subst o.
    destruct (IH w1) as [Hout' Hkeep'].
    split; [done | by eapply keeps_trans].
Qed.

Lemma awaitSubmission_runs (query : string) (userId : option string)
    (w : World CR T) :
  (awaitSubmission api query userId w).2 =
    snd (submitQueryAndWait api (mkRequest query userId)) /\
  keeps w (awaitSubmission api query userId w).1.
Proof.
  unfold awaitSubmission, request, doStartTracking, onTracker, called,
    setState, bind, tryCatch, modify, await.
  destruct (healthCheck api); cbn;
    match goal with
    | |- context [forEach onProgress ?l ?w1] =>
        destruct (forEach_onProgress_runs l w1) as [Hout Hkeep];
        destruct (forEach onProgress l w1) as [w2 o]; cbn in *; subst o
    end; done.
Qed.

Lemma loadCached_runs (id : string) (w : World CR T) :
  (loadCached api id w).2 = Fulfilled true \/
  ((loadCached api id w).2 = Fulfilled false /\ keeps w (loadCached api id w).1).
Proof.
  unfold loadCached, called, setState, bind, tryCatch, modify, ret.
  destruct (getLessons api id); cbn; [by left | right; by repeat split].
Qed.

Lemma untilResolved_runs (query : string) (userId : option string)
    (w : World CR T) :
  (untilResolved api query userId w).2 = Fulfilled None \/
  keeps w (untilResolved api query userId w).1.
Proof.
  unfold untilResolved, request, called, bind, modify, await, ret.
  pose proof (awaitSubmission_runs query userId) as Hsubmit.
  pose proof (loadCached_runs) as Hcached.
  generalize dependent (awaitSubmission api query userId).
  generalize dependent (@loadCached CR T api).
  intros cachedRun Hcached submitRun Hsubmit.
  assert (Hfresh : forall w1, keeps w w1 ->
    keeps w (let (w', o) := submitRun w1 in
             match o with
             | Fulfilled a => (w', Fulfilled (Some a))
             | Rejected e => (w', @Rejected (option (SubmitResult CR)) e)
             end).1).
  { intros w1 Hk. destruct (Hsubmit w1) as [_ Hk1].
    destruct (submitRun w1) as [w2 [a | e]]; cbn in *;
      by eapply keeps_trans. }
  destruct (getCachedQueryId api query) as [[id |] | e]; cbn.
  - destruct (truthy id); cbn.
    + match goal with
      | |- context [cachedRun id ?w0] =>
          destruct (Hcached id w0) as [Hret | [Hret Hk]];
          destruct (cachedRun id w0) as [w1 o]; cbn in Hret; subst o
      end.
      * by left.
      * right. by apply Hfresh.
    + right. apply Hfresh. by repeat split.
  - right. apply Hfresh. by repeat split.
  - right. by repeat split.
Qed.

Lemma afterSubmission_rejected (query : string) (result : SubmitResult CR)
    (w : World CR T) (e : Thrown) :
  (afterSubmission api query result w).2 = Rejected e ->
  keeps w (afterSubmission api query result w).1 /\
  truthy (Services.queryId result) = true /\
  saveQueryMapping api query (Services.queryId result) = Rejected e.
Proof.
  unfold afterSubmission, request, doUpdateTaskProgress, doMarkTaskFailed,
    doGetTaskByType, onTracker, setTimeout, called, setState, bind, modify,
    gets, await, ret.
  destruct (present (Services.lessons result));
    destruct (present (Services.relatedQuestions result)); cbn;
    repeat (match goal with
            | |- context [bool_decide ?P] => destruct (bool_decide P)
            end; cbn);
    destruct (truthy (Services.queryId result)); cbn; try discriminate;
    destruct (saveQueryMapping api query (Services.queryId result)) eqn:Hs;
    cbn; try discriminate;
    intros [= ->]; by repeat split.
Qed.

Lemma tryBlock_rejected (query : string) (userId : option string)
    (w : World CR T) (e : Thrown) :
  (tryBlock api query userId w).2 = Rejected e ->
  keeps w (tryBlock api query userId w).1.
Proof.
  unfold tryBlock, bind.
  destruct (untilResolved_runs query userId w) as [Hnone | Hk];
    destruct (untilResolved api query userId w) as [w1 [[result |] | e1]];
    cbn in *; try discriminate; try done.
  intros Hrej. apply afterSubmission_rejected in Hrej as [Hk2 _].
  by eapply keeps_trans.
Qed.

(** [submitQuery] ends where its [try] block ends, or where the [catch]
    clause takes it from there. *)
Lemma submitQuery_unfold (query : string) (userId : option string)
    (w : World CR T) :
  submitQuery api query userId w =
    match (atCatch api query userId w).2 with
    | Fulfilled _ => ((atCatch api query userId w).1, Fulfilled tt)
    | Rejected e => onError e (atCatch api query userId w).1
    end.
Proof.
  unfold submitQuery, atCatch, bind, tryCatch, markLoading, setState, modify.
  by destruct (tryBlock api query userId _) as [w1 [[] | e]].
Qed.

(** The promise of [submitQuery] is never rejected. *)
Lemma submitQuery_resolves (query : string) (userId : option string)
    (w : World CR T) :
  (submitQuery api query userId w).2 = Fulfilled tt.
Proof.
  rewrite submitQuery_unfold.
  by destruct ((atCatch api query userId w).2).
Qed.

(** The [try] block, split at the point [untilResolved] ends. *)
Lemma atCatch_unfold (query : string) (userId : option string)
    (w : World CR T) :
  atCatch api query userId w =
    match (atResolution api query userId w).2 with
    | Fulfilled (Some result) =>
        afterSubmission api query result (atResolution api query userId w).1
    | Fulfilled None => ((atResolution api query userId w).1, Fulfilled tt)
    | Rejected e => ((atResolution api query userId w).1, Rejected e)
    end.
Proof.
  unfold atCatch, atResolution, tryBlock, bind, markLoading, setState, modify.
  by destruct (untilResolved api query userId _) as [w1 [[result |] | e]].
Qed.

(** When the [try] block is left, the cells [keeps] names still hold what
    the first write left there. *)
Lemma atCatch_rejected (query : string) (userId : option string)
    (w : World CR T) (e : Thrown) :
  (atCatch api query userId w).2 = Rejected e ->
  let w1 := (atCatch api query userId w).1 in
  loading (state w1) = true /\ error (state w1) = None /\
  queryId (state w1) = queryId (state w) /\
  lessons (state w1) = lessons (state w) /\
  relatedQuestions (state w1) = relatedQuestions (state w).
Proof.
  unfold atCatch, bind, markLoading, setState, modify. intros Hrej.
  apply tryBlock_rejected in Hrej. exact Hrej.
Qed.

End Frames.

(** ** [useApiQuery]: the cache *)

Section CacheClaims.

Import ApiQuery.

Context {CR T : Type} `{!TaskTracker T}.
Variable api : Answers CR.

(** C1.  When the offline cache answers the query with an id (a non-empty
    string, which is what the guard [if (cachedQueryId)] lets through) and
    the lessons of that id are fetched, [submitQuery] ends with
    [loading = false], [queryId] the cached id, [lessons] the fetched
    payload, [relatedQuestions] the fetched payload or [null] when that
    fetch failed, and [progress = "Cached content loaded!"]; the calls it
    made are the cache lookup and the two fetches, so [submitQueryAndWait]
    is not among them. *)
Theorem submitQuery_cache_hit (query : string) (userId : option string)
    (w : World CR T) (id : string) (payload : CR) :
  getCachedQueryId api query = Fulfilled (Some id) ->
  id <> "" ->
  getLessons api id = Fulfilled payload ->
  (submitQuery api query userId w).2 = Fulfilled tt /\
  loading (state (submitQuery api query userId w).1) = false /\
  queryId (state (submitQuery api query userId w).1) = Some id /\
  lessons (state (submitQuery api query userId w).1) = Some payload /\
  relatedQuestions (state (submitQuery api query userId w).1) =
    match getRelatedQuestions api id with
    | Fulfilled related => Some related
    | Rejected _ => None
    end /\
  progress (state (submitQuery api query userId w).1) =
    Some "Cached content loaded!" /\
  exists made,
    calls (submitQuery api query userId w).1 = (calls w ++ made)%list /\
    made = [GetCachedQueryId query; GetLessons id; GetRelatedQuestions id] /\
    Forall (fun c => isSubmission c = false) made.
Proof.
  intros Hprobe Hid Hlessons.
  rewrite (submitQuery_cached api query userId w id payload Hprobe
             (truthy_nonempty id Hid) Hlessons).
  cbn. repeat split.
  eexists. repeat split. by repeat constructor.
Qed.

(** C10.  On the cached path that ends [submitQuery] (cache hit whose
    lessons load) no operation of the task tracker is invoked: the tracker
    is the one the call started with, every task record reads as before,
    no call on the tracker is logged (so [startTracking] is not called) and
    no timer is set. *)
Theorem submitQuery_cache_hit_leaves_tracker (query : string)
    (userId : option string) (w : World CR T) (id : string) (payload : CR) :
  getCachedQueryId api query = Fulfilled (Some id) ->
  id <> "" ->
  getLessons api id = Fulfilled payload ->
  taskTracker (submitQuery api query userId w).1 = taskTracker w /\
  (forall type,
     getTaskByType type (taskTracker (submitQuery api query userId w).1) =
     getTaskByType type (taskTracker w)) /\
  timers (submitQuery api query userId w).1 = timers w /\
  exists made,
    calls (submitQuery api query userId w).1 = (calls w ++ made)%list /\
    Forall (fun c => isTrackerCall c = false) made.
Proof.
  intros Hprobe Hid Hlessons.
  rewrite (submitQuery_cached api query userId w id payload Hprobe
             (truthy_nonempty id Hid) Hlessons).
  cbn. repeat split.
  eexists. split; [reflexivity | by repeat constructor].
Qed.

(** What [submitQuery] does with a throwing lookup in the offline cache,
    for every failure.  The lookup of source line 46 stands outside the
    inner [try] of lines 56-80, so the fallback that the comment of line 83
    announces ("if no cache or cache failed, proceed with new query
    submission") is not taken: the outer [catch] clause takes the failure,
    [submitQuery] ends with [loading = false], [error] the message derived
    from the failure and [progress = null], the content cells as they were,
    the tracker reset; the calls made are the lookup and the reset, so no
    submission is made. *)
Theorem submitQuery_cache_probe_failure (query : string)
    (userId : option string) (w : World CR T) (e : Thrown) :
  getCachedQueryId api query = Rejected e ->
  (submitQuery api query userId w).2 = Fulfilled tt /\
  state (submitQuery api query userId w).1 =
    mkState false (Some (errorMessage e)) (queryId (state w))
      (lessons (state w)) (relatedQuestions (state w)) None /\
  taskTracker (submitQuery api query userId w).1 = reset (taskTracker w) /\
  calls (submitQuery api query userId w).1 =
    (calls w ++ [GetCachedQueryId query; OnTracker ResetTracker])%list /\
  Forall (fun c => isSubmission c = false)
    [GetCachedQueryId query; OnTracker ResetTracker].
Proof.
  intros Hprobe.
  rewrite (submitQuery_probe_throws api query userId w e Hprobe).
  cbn. repeat split. by repeat constructor.
Qed.

End CacheClaims.

Section CacheClaimsRun.

Import ApiQuery Scenario.

Lemma submitQuery_cache_hit_witness :
  queryId (state (submitQuery cached "photosynthesis" None idle).1) = Some "q7" /\
  relatedQuestions (state (submitQuery cached "photosynthesis" None idle).1) = None.
Proof.
  pose proof (submitQuery_cache_hit cached "photosynthesis" None idle "q7"
                lessonsPayload eq_refl ltac:(discriminate) eq_refl)
    as (_ & _ & Hid & _ & Hrelated & _).
  exact (conj Hid Hrelated).
Defined.

Lemma submitQuery_cache_hit_leaves_tracker_witness :
  taskTracker (submitQuery cached "photosynthesis" None idle).1 = emptyTasks.
Proof.
  exact (proj1 (submitQuery_cache_hit_leaves_tracker cached "photosynthesis"
                  None idle "q7" lessonsPayload eq_refl ltac:(discriminate)
                  eq_refl)).
Defined.

Lemma submitQuery_cache_probe_failure_witness :
  state (submitQuery probeThrows "photosynthesis" None idle).1 =
    mkState false (Some "IndexedDB is not available") None None None None.
Proof.
  exact (proj1 (proj2 (submitQuery_cache_probe_failure probeThrows
                         "photosynthesis" None idle
                         (Error "IndexedDB is not available") eq_refl))).
Defined.

(** The guard [if (cachedQueryId)] takes an empty id for a miss: the run
    goes on to a fresh submission. *)
Lemma empty_cached_id_counts_as_miss :
  calls (submitQuery emptyId "photosynthesis" None idle).1 =
    [ GetCachedQueryId "photosynthesis"; HealthCheck;
      OnTracker (StartTracking "query-1700000000000");
      SubmitQueryAndWait (mkRequest "photosynthesis" None);
      OnTracker (UpdateTaskProgress LESSONS 20);
      OnTracker (UpdateTaskProgress RELATED_QUESTIONS 10);
      OnTracker (MarkTaskCompleted LESSONS);
      OnTracker (UpdateTaskProgress RELATED_QUESTIONS 50);
      OnTracker (UpdateTaskProgress FLASHCARDS 10);
      OnTracker (GetTaskByType RELATED_QUESTIONS);
      OnTracker (MarkTaskFailed RELATED_QUESTIONS
                   "Related questions could not be generated");
      OnTracker (UpdateTaskProgress FLASHCARDS 50);
      SaveQueryMapping "photosynthesis" "q1" ].
Proof. vm_compute. reflexivity. Qed.

(** C3.  The claim asks that a throwing cache lookup be swallowed and the
    run fall through to a fresh submission, as the comment of source line 83
    and the cached-content branch next to it have it.  The code misses that:
    with an offline cache whose lookup throws, the failure is shown to the
    user in [error], and the run never reaches [submitQueryAndWait]. *)
Lemma cache_probe_failure_is_surfaced :
  getCachedQueryId probeThrows "photosynthesis" =
    Rejected (Error "IndexedDB is not available") /\
  error (state (submitQuery probeThrows "photosynthesis" None idle).1) =
    Some "IndexedDB is not available" /\
  calls (submitQuery probeThrows "photosynthesis" None idle).1 =
    [GetCachedQueryId "photosynthesis"; OnTracker ResetTracker] /\
  ~ In (SubmitQueryAndWait (mkRequest "photosynthesis" None))
       (calls (submitQuery probeThrows "photosynthesis" None idle).1).
Proof.
  repeat split. cbn. intros [H | [H | []]]; discriminate.
Qed.

End CacheClaimsRun.

(** ** [useApiQuery]: the [catch] clause *)

Section ErrorPath.

Import ApiQuery.

Context {CR : Type}.
Variable api : Answers CR.

(** C4.  Whenever the [try] block of [submitQuery] is left with a failure
    [e], the run ends in the write of the [catch] clause: [loading = false],
    [error] the message derived from [e], [progress = null]; [queryId],
    [lessons] and [relatedQuestions] hold what they held before the call
    (no earlier step had written them); [taskTracker.reset()] is the last
    call made and the tracker is the empty one, with no task record. *)
Theorem submitQuery_error_path (query : string) (userId : option string)
    (w : World CR Tasks) (e : Thrown) :
  (atCatch api query userId w).2 = Rejected e ->
  (submitQuery api query userId w).2 = Fulfilled tt /\
  loading (state (submitQuery api query userId w).1) = false /\
  error (state (submitQuery api query userId w).1) = Some (errorMessage e) /\
  progress (state (submitQuery api query userId w).1) = None /\
  queryId (state (submitQuery api query userId w).1) = queryId (state w) /\
  lessons (state (submitQuery api query userId w).1) = lessons (state w) /\
  relatedQuestions (state (submitQuery api query userId w).1) =
    relatedQuestions (state w) /\
  calls (submitQuery api query userId w).1 =
    (calls (atCatch api query userId w).1 ++ [OnTracker ResetTracker])%list /\
  taskTracker (submitQuery api query userId w).1 = emptyTasks /\
  forall type,
    getTaskByType type (taskTracker (submitQuery api query userId w).1) = None.
Proof.
  intros Hrej.
  destruct (atCatch_rejected api query userId w e Hrej)
    as (_ & _ & Hid & Hlessons & Hrelated).
  rewrite submitQuery_unfold, Hrej.
  unfold onError, doReset, onTracker, setState, bind, modify. cbn.
  repeat split; try done.
Qed.

(** C5.  The message the [catch] clause of [submitQuery] shows for a caught
    failure [e] is [errorMessage e], and [errorMessage] follows the
    derivation of the spec: status code 0 gives the connection message,
    another status code the backend message with the code in decimal, any
    other error its own message, and anything else the fallback. *)
Theorem submitQuery_error_message (query : string) (userId : option string)
    (w : World CR Tasks) (e : Thrown) :
  (atCatch api query userId w).2 = Rejected e ->
  error (state (submitQuery api query userId w).1) = Some (errorMessage e) /\
  Derived e (errorMessage e).
Proof.
  intros Hrej. split.
  - rewrite submitQuery_unfold, Hrej. reflexivity.
  - destruct e as [code detail | message |]; cbn.
    + destruct (decide (code = 0)) as [-> | Hcode]; by constructor.
    + constructor.
    + constructor.
Qed.

(** C2, as the code has it.  [saveQueryMapping] is awaited inside the [try]
    block: when the submission has resolved with a non-empty [queryId] and
    storing the mapping fails with [e], the [catch] clause takes the
    failure.  The promise of [submitQuery] is fulfilled, not rejected, and
    the run ends with [loading = false], [error] the message derived from
    [e], [progress = null], the content cells as before the call and the
    tracker reset. *)
Theorem submitQuery_save_failure (query : string) (userId : option string)
    (w : World CR Tasks) (result : SubmitResult CR) (e : Thrown) :
  (atResolution api query userId w).2 = Fulfilled (Some result) ->
  Services.queryId result <> "" ->
  saveQueryMapping api query (Services.queryId result) = Rejected e ->
  (atCatch api query userId w).2 = Rejected e /\
  (submitQuery api query userId w).2 = Fulfilled tt /\
  loading (state (submitQuery api query userId w).1) = false /\
  error (state (submitQuery api query userId w).1) = Some (errorMessage e) /\
  progress (state (submitQuery api query userId w).1) = None /\
  queryId (state (submitQuery api query userId w).1) = queryId (state w) /\
  lessons (state (submitQuery api query userId w).1) = lessons (state w) /\
  relatedQuestions (state (submitQuery api query userId w).1) =
    relatedQuestions (state w) /\
  taskTracker (submitQuery api query userId w).1 = emptyTasks.
Proof.
  intros Hres Hid Hsave.
  assert (Hrej : (atCatch api query userId w).2 = Rejected e).
  { rewrite atCatch_unfold, Hres.
    unfold afterSubmission, request, doUpdateTaskProgress, doMarkTaskFailed,
      doGetTaskByType, onTracker, setTimeout, called, setState, bind, modify,
      gets, await, ret.
    rewrite (truthy_nonempty _ Hid), Hsave.
    destruct (present (Services.lessons result));
      destruct (present (Services.relatedQuestions result)); cbn;
      repeat (match goal with
              | |- context [bool_decide ?P] => destruct (bool_decide P)
              end; cbn);
      reflexivity. }
  split; [exact Hrej |].
  destruct (atCatch_rejected api query userId w e Hrej)
    as (_ & _ & Hqid & Hlessons & Hrelated).
  rewrite submitQuery_unfold, Hrej.
  unfold onError, doReset, onTracker, setState, bind, modify. cbn.
  repeat split; done.
Qed.

End ErrorPath.

Section ErrorPathRun.

Import ApiQuery Scenario.

Lemma submitQuery_error_path_witness :
  error (state (submitQuery unreachable "photosynthesis" None idle).1) =
    Some "Connection failed: ECONNREFUSED. Is the backend server running on the correct port?" /\
  taskTracker (submitQuery unreachable "photosynthesis" None idle).1 = emptyTasks.
Proof.
  pose proof (submitQuery_error_path unreachable "photosynthesis" None idle
                (APIClientError 0 "ECONNREFUSED") eq_refl)
    as (_ & _ & Herror & _ & _ & _ & _ & _ & Htracker & _).
  exact (conj Herror Htracker).
Defined.

Lemma submitQuery_error_message_witness :
  error (state (submitQuery unreachable "photosynthesis" None idle).1) =
    Some "Connection failed: ECONNREFUSED. Is the backend server running on the correct port?".
Proof.
  exact (proj1 (submitQuery_error_message unreachable "photosynthesis" None
                  idle (APIClientError 0 "ECONNREFUSED") eq_refl)).
Defined.

Lemma submitQuery_save_failure_witness :
  error (state (submitQuery saveThrows "photosynthesis" None idle).1) =
    Some "QuotaExceededError".
Proof.
  pose proof (submitQuery_save_failure saveThrows "photosynthesis" None idle
                (mkResult "q1" (Some lessonsPayload) None)
                (Error "QuotaExceededError")
                eq_refl ltac:(discriminate) eq_refl)
    as (_ & _ & _ & Herror & _).
  exact Herror.
Defined.

(** C2 as the spec states it fails: the submission resolves with the id
    ["q1"], storing the mapping throws, and the promise of [submitQuery] is
    fulfilled all the same, with the failure shown in [error]. *)
Lemma save_failure_is_caught :
  (atResolution saveThrows "photosynthesis" None idle).2 =
    Fulfilled (Some (mkResult "q1" (Some lessonsPayload) None)) /\
  saveQueryMapping saveThrows "photosynthesis" "q1" =
    Rejected (Error "QuotaExceededError") /\
  (submitQuery saveThrows "photosynthesis" None idle).2 = Fulfilled tt /\
  (submitQuery saveThrows "photosynthesis" None idle).2 <>
    Rejected (Error "QuotaExceededError") /\
  error (state (submitQuery saveThrows "photosynthesis" None idle).1) =
    Some "QuotaExceededError".
Proof.
  repeat split. discriminate.
Qed.

End ErrorPathRun.

(** ** The progress callback *)

Section ProgressCallback.

Import ApiQuery.

Context {CR T : Type} `{!TaskTracker T}.

Local Abbreviation withProgress w text :=
  (mkState (loading (state w)) (error (state w)) (queryId (state w))
           (lessons (state w)) (relatedQuestions (state w)) (Some text)).

Local Ltac run_callback :=
  unfold onProgress, doUpdateTaskProgress, doMarkTaskCompleted,
    doMarkTaskFailed, doGetTaskByType, onTracker, called, setState, bind,
    modify, gets, ret.

Lemma onProgress_submitted (text : string) (w : World CR T) :
  includes text "submitted" = true ->
  onProgress text w =
    (mkWorld (withProgress w text)
       (updateTaskProgress RELATED_QUESTIONS 10
          (updateTaskProgress LESSONS 20 (taskTracker w)))
       (calls w ++ [OnTracker (UpdateTaskProgress LESSONS 20);
                    OnTracker (UpdateTaskProgress RELATED_QUESTIONS 10)])
       (timers w),
     Fulfilled tt).
Proof.
  intros H1. run_callback. rewrite H1. cbn. by rewrite <- !app_assoc.
Qed.

Lemma onProgress_lessons_ready (text : string) (w : World CR T) :
  includes text "submitted" = false ->
  includes text "Lessons ready" = true ->
  onProgress text w =
    (mkWorld (withProgress w text)
       (updateTaskProgress FLASHCARDS 10
          (updateTaskProgress RELATED_QUESTIONS 50
             (markTaskCompleted LESSONS (taskTracker w))))
       (calls w ++ [OnTracker (MarkTaskCompleted LESSONS);
                    OnTracker (UpdateTaskProgress RELATED_QUESTIONS 50);
                    OnTracker (UpdateTaskProgress FLASHCARDS 10)])
       (timers w),
     Fulfilled tt).
Proof.
  intros H1 H2. run_callback. rewrite H1, H2. cbn. by rewrite <- !app_assoc.
Qed.

Lemma onProgress_related_ready (text : string) (w : World CR T) :
  includes text "submitted" = false ->
  includes text "Lessons ready" = false ->
  includes text "Related questions ready" = true ->
  let marked := markTaskCompleted RELATED_QUESTIONS (taskTracker w) in
  onProgress text w =
    if decide (statusOf (getTaskByType LESSONS marked) = Some COMPLETED)
    then
      (mkWorld (withProgress w text) (updateTaskProgress FLASHCARDS 30 marked)
         (calls w ++ [OnTracker (MarkTaskCompleted RELATED_QUESTIONS);
                      OnTracker (GetTaskByType LESSONS);
                      OnTracker (UpdateTaskProgress FLASHCARDS 30)])
         (timers w),
       Fulfilled tt)
    else
      (mkWorld (withProgress w text) marked
         (calls w ++ [OnTracker (MarkTaskCompleted RELATED_QUESTIONS);
                      OnTracker (GetTaskByType LESSONS)])
         (timers w),
       Fulfilled tt).
Proof.
  intros H1 H2 H3 marked. run_callback. rewrite H1, H2, H3. cbn.
  fold marked. destruct (decide _); cbn; by rewrite <- !app_assoc.
Qed.

Lemma onProgress_takes_longer (text : string) (w : World CR T) :
  includes text "submitted" = false ->
  includes text "Lessons ready" = false ->
  includes text "Related questions ready" = false ->
  includes text "may take longer" = true ->
  let reason := "Related questions are taking longer than expected" in
  let marked := markTaskFailed RELATED_QUESTIONS reason (taskTracker w) in
  onProgress text w =
    if decide (statusOf (getTaskByType LESSONS marked) = Some COMPLETED)
    then
      (mkWorld (withProgress w text) (updateTaskProgress FLASHCARDS 30 marked)
         (calls w ++ [OnTracker (MarkTaskFailed RELATED_QUESTIONS reason);
                      OnTracker (GetTaskByType LESSONS);
                      OnTracker (UpdateTaskProgress FLASHCARDS 30)])
         (timers w),
       Fulfilled tt)
    else
      (mkWorld (withProgress w text) marked
         (calls w ++ [OnTracker (MarkTaskFailed RELATED_QUESTIONS reason);
                      OnTracker (GetTaskByType LESSONS)])
         (timers w),
       Fulfilled tt).
Proof.
  intros H1 H2 H3 H4 reason marked. run_callback. rewrite H1, H2, H3, H4. cbn.
  fold reason marked. destruct (decide _); cbn; by rewrite <- !app_assoc.
Qed.

Lemma onProgress_other (text : string) (w : World CR T) :
  includes text "submitted" = false ->
  includes text "Lessons ready" = false ->
  includes text "Related questions ready" = false ->
  includes text "may take longer" = false ->
  onProgress text w =
    (mkWorld (withProgress w text) (taskTracker w) (calls w) (timers w),
     Fulfilled tt).
Proof.
  intros H1 H2 H3 H4. run_callback. by rewrite H1, H2, H3, H4.
Qed.

End ProgressCallback.

(** ** The spec's tracker *)

Section TasksFacts.

Lemma tasksStart_tracked (id : string) (m : Tasks) : tracked (tasksStart id m).
Proof. intros []; by eexists. Qed.

Lemma tasksUpdate_tracked (t : ContentTaskType) (p : Z) (m : Tasks) :
  tracked m -> tracked (tasksUpdate t p m).
Proof.
  intros Hm type. cbn. unfold tasksUpdate, Tasks in *.
  apply lookup_alter_is_Some, Hm.
Qed.

Lemma tasksCompleted_tracked (t : ContentTaskType) (m : Tasks) :
  tracked m -> tracked (tasksCompleted t m).
Proof.
  intros Hm type. cbn. unfold tasksCompleted, Tasks in *.
  apply lookup_alter_is_Some, Hm.
Qed.

Lemma tasksFailed_tracked (t : ContentTaskType) (r : string) (m : Tasks) :
  tracked m -> tracked (tasksFailed t r m).
Proof.
  intros Hm type. cbn. unfold tasksFailed, Tasks in *.
  apply lookup_alter_is_Some, Hm.
Qed.

Lemma tasksUpdate_same (t : ContentTaskType) (p : Z) (m : Tasks) :
  getTaskByType t (tasksUpdate t p m) =
    (fun k => mkTask (status k) p (failureReason k)) <$> getTaskByType t m.
Proof. cbn. unfold tasksUpdate, Tasks in *. apply lookup_alter_eq. Qed.

Lemma tasksUpdate_other (t t' : ContentTaskType) (p : Z) (m : Tasks) :
  t <> t' -> getTaskByType t' (tasksUpdate t p m) = getTaskByType t' m.
Proof. intros Hne. cbn. unfold tasksUpdate, Tasks in *. by apply lookup_alter_ne. Qed.

Lemma tasksCompleted_same (t : ContentTaskType) (m : Tasks) :
  getTaskByType t (tasksCompleted t m) =
    (fun k => mkTask COMPLETED (progressPercent k) (failureReason k))
      <$> getTaskByType t m.
Proof. cbn. unfold tasksCompleted, Tasks in *. apply lookup_alter_eq. Qed.

Lemma tasksFailed_same (t : ContentTaskType) (r : string) (m : Tasks) :
  getTaskByType t (tasksFailed t r m) =
    (fun k => mkTask FAILED (progressPercent k) (Some r)) <$> getTaskByType t m.
Proof. cbn. unfold tasksFailed, Tasks in *. apply lookup_alter_eq. Qed.

End TasksFacts.

(** ** [useApiQuery]: the fresh submission *)

Section Submission.

Import ApiQuery.

Context {CR : Type}.
Variable api : Answers CR.

Lemma onProgress_tracked (text : string) (w : World CR Tasks) :
  tracked (taskTracker w) -> tracked (taskTracker (onProgress text w).1).
Proof.
  intros Hw.
  unfold onProgress, doUpdateTaskProgress, doMarkTaskCompleted,
    doMarkTaskFailed, doGetTaskByType, onTracker, called, setState, bind,
    modify, gets, ret.
  cbn.
  repeat (match goal with
          | |- context [if includes ?s ?k then _ else _] =>
              destruct (includes s k)
          | |- context [decide ?P] => destruct (decide P)
          end; cbn);
    repeat first [ exact Hw
                 | apply tasksUpdate_tracked
                 | apply tasksCompleted_tracked
                 | apply tasksFailed_tracked ].
Qed.

Lemma forEach_onProgress_tracked (texts : list string) (w : World CR Tasks) :
  tracked (taskTracker w) ->
  tracked (taskTracker (forEach onProgress texts w).1).
Proof.
  revert w. induction texts as [| text texts IH]; intros w Hw; cbn; [done |].
  unfold bind.
  pose proof (onProgress_tracked text w Hw) as Hstep.
  destruct (onProgress_runs text w) as [Hout _].
  destruct (onProgress text w) as [w1 o]; cbn in *; subst o.
  by apply IH.
Qed.

Lemma awaitSubmission_tracked (query : string) (userId : option string)
    (w : World CR Tasks) :
  tracked (taskTracker (awaitSubmission api query userId w).1).
Proof.
  unfold awaitSubmission, request, doStartTracking, onTracker, called,
    setState, bind, tryCatch, modify, await.
  destruct (healthCheck api); cbn;
    match goal with
    | |- context [forEach onProgress ?l ?w1] =>
        pose proof (forEach_onProgress_tracked l w1
                      (tasksStart_tracked _ _)) as Htracked;
        destruct (forEach_onProgress_runs l w1) as [Hout _];
        destruct (forEach onProgress l w1) as [w2 o]; cbn in *; subst o
    end; done.
Qed.

(** At the point a submission has resolved, every task has a record, and
    the state cells are as the first write left them. *)
Lemma atResolution_submitted (query : string) (userId : option string)
    (w : World CR Tasks) (result : SubmitResult CR) :
  (atResolution api query userId w).2 = Fulfilled (Some result) ->
  tracked (taskTracker (atResolution api query userId w).1) /\
  loading (state (atResolution api query userId w).1) = true /\
  error (state (atResolution api query userId w).1) = None.
Proof.
  intros Hres. split.
  - revert Hres.
    unfold atResolution, markLoading, setState, untilResolved, request, called,
      bind, modify, await, ret.
    pose proof (awaitSubmission_tracked query userId) as Hsubmit.
    generalize dependent (awaitSubmission api query userId).
    generalize dependent (@loadCached CR Tasks api).
    intros cachedRun submitRun Hsubmit.
    assert (Hfresh : forall w1,
      tracked (taskTracker
        (let (w', o) := submitRun w1 in
         match o with
         | Fulfilled a => (w', Fulfilled (Some a))
         | Rejected e => (w', @Rejected (option (SubmitResult CR)) e)
         end).1)).
    { intros w1. specialize (Hsubmit w1).
      by destruct (submitRun w1) as [w2 [a | e]]. }
    destruct (getCachedQueryId api query) as [[id |] | e]; cbn;
      [| intros _; apply Hfresh | discriminate].
    destruct (truthy id); cbn; [| intros _; apply Hfresh].
    match goal with
    | |- context [cachedRun id ?w0] =>
        destruct (cachedRun id w0) as [w1 [[] | e]]; cbn
    end; [discriminate | intros _; apply Hfresh | discriminate].
  - unfold atResolution, bind, markLoading, setState, modify in *.
    match goal with
    | |- context [untilResolved api query userId ?w0] =>
        destruct (untilResolved_runs api query userId w0) as [Hnone | Hk]
    end.
    + rewrite Hnone in Hres. discriminate.
    + destruct Hk as (Hl & He & _). by rewrite Hl, He.
Qed.

End Submission.

Section SubmissionClaims.

Import ApiQuery.

Context {CR : Type}.
Variable api : Answers CR.

(** C6, as the code has it.  Every call of the progress callback writes
    the received text to [progress] and classifies it by the first of
    ["submitted"], ["Lessons ready"], ["Related questions ready"],
    ["may take longer"] that it contains.  A text that contains
    ["Lessons ready"] and does not contain ["submitted"] makes exactly the
    calls [markTaskCompleted(LESSONS)], [updateTaskProgress(RELATED_QUESTIONS, 50)],
    [updateTaskProgress(FLASHCARDS, 10)]; with the spec's tracker and
    tracking started, LESSONS is COMPLETED, RELATED_QUESTIONS is at 50 and
    FLASHCARDS at 10 when the callback returns. *)
Theorem onProgress_classification (text : string) (w : World CR Tasks) :
  (onProgress text w).2 = Fulfilled tt /\
  progress (state (onProgress text w).1) = Some text /\
  (includes text "submitted" = true ->
     calls (onProgress text w).1 =
       (calls w ++ [OnTracker (UpdateTaskProgress LESSONS 20);
                    OnTracker (UpdateTaskProgress RELATED_QUESTIONS 10)])%list) /\
  (includes text "submitted" = false ->
   includes text "Lessons ready" = true ->
     calls (onProgress text w).1 =
       (calls w ++ [OnTracker (MarkTaskCompleted LESSONS);
                    OnTracker (UpdateTaskProgress RELATED_QUESTIONS 50);
                    OnTracker (UpdateTaskProgress FLASHCARDS 10)])%list /\
     taskTracker (onProgress text w).1 =
       updateTaskProgress FLASHCARDS 10
         (updateTaskProgress RELATED_QUESTIONS 50
            (markTaskCompleted LESSONS (taskTracker w))) /\
     (tracked (taskTracker w) ->
        statusOf (getTaskByType LESSONS (taskTracker (onProgress text w).1)) =
          Some COMPLETED /\
        progressPercent <$>
          getTaskByType RELATED_QUESTIONS (taskTracker (onProgress text w).1) =
          Some 50 /\
        progressPercent <$>
          getTaskByType FLASHCARDS (taskTracker (onProgress text w).1) =
          Some 10)) /\
  (includes text "submitted" = false ->
   includes text "Lessons ready" = false ->
   includes text "Related questions ready" = true ->
     exists rest,
       calls (onProgress text w).1 =
         (calls w ++
            OnTracker (MarkTaskCompleted RELATED_QUESTIONS) :: rest)%list) /\
  (includes text "submitted" = false ->
   includes text "Lessons ready" = false ->
   includes text "Related questions ready" = false ->
   includes text "may take longer" = true ->
     exists rest,
       calls (onProgress text w).1 =
         (calls w ++
            OnTracker (MarkTaskFailed RELATED_QUESTIONS
              "Related questions are taking longer than expected") :: rest)%list) /\
  (includes text "submitted" = false ->
   includes text "Lessons ready" = false ->
   includes text "Related questions ready" = false ->
   includes text "may take longer" = false ->
     calls (onProgress text w).1 = calls w /\
     taskTracker (onProgress text w).1 = taskTracker w).
Proof.
  split; [apply onProgress_runs |].
  split.
  { unfold onProgress, doUpdateTaskProgress, doMarkTaskCompleted,
      doMarkTaskFailed, doGetTaskByType, onTracker, called, setState, bind,
      modify, gets, ret.
    cbn.
    repeat (match goal with
            | |- context [if includes ?s ?k then _ else _] =>
                destruct (includes s k)
            | |- context [decide ?P] => destruct (decide P)
            end; cbn); reflexivity. }
  split; [intros H1; by rewrite onProgress_submitted |].
  split.
  { intros H1 H2. rewrite onProgress_lessons_ready by done. cbn [fst taskTracker calls].
    split; [done |]. split; [done |].
    intros Hw.
    destruct (Hw LESSONS) as [lessonsTask Hl].
    destruct (Hw RELATED_QUESTIONS) as [relatedTask Hr].
    destruct (Hw FLASHCARDS) as [flashcardsTask Hf].
    change (updateTaskProgress FLASHCARDS 10) with (tasksUpdate FLASHCARDS 10).
    change (updateTaskProgress RELATED_QUESTIONS 50)
      with (tasksUpdate RELATED_QUESTIONS 50).
    change (markTaskCompleted LESSONS) with (tasksCompleted LESSONS).
    rewrite tasksUpdate_same.
    rewrite !tasksUpdate_other by discriminate.
    rewrite (tasksUpdate_other RELATED_QUESTIONS FLASHCARDS) by discriminate.
    rewrite tasksUpdate_same, tasksCompleted_same.
    assert (Hr' : getTaskByType RELATED_QUESTIONS
                    (tasksCompleted LESSONS (taskTracker w)) = Some relatedTask).
    { cbn. unfold tasksCompleted, Tasks in *.
      rewrite lookup_alter_ne by discriminate. exact Hr. }
    assert (Hf' : getTaskByType FLASHCARDS
                    (tasksCompleted LESSONS (taskTracker w)) = Some flashcardsTask).
    { cbn. unfold tasksCompleted, Tasks in *.
      rewrite lookup_alter_ne by discriminate. exact Hf. }
    rewrite Hl, Hr', Hf'. done. }
  split.
  { intros H1 H2 H3. rewrite onProgress_related_ready by done. cbn zeta.
    destruct (decide _); cbn; eexists; reflexivity. }
  split.
  { intros H1 H2 H3 H4. rewrite onProgress_takes_longer by done. cbn zeta.
    destruct (decide _); cbn; eexists; reflexivity. }
  intros H1 H2 H3 H4. by rewrite onProgress_other.
Qed.

(** C7, as the code has it.  Let the submission resolve with lessons and
    without related questions, the RELATED_QUESTIONS task being neither
    COMPLETED nor FAILED at that point.  Then [markTaskFailed] is called on
    RELATED_QUESTIONS with the reason "Related questions could not be
    generated"; and when storing the query-to-id mapping does not fail
    (or the result has an empty [queryId], so that nothing is stored), the
    run ends with [loading = false], [error = null], [queryId] and
    [lessons] from the result, [relatedQuestions = null],
    [progress = "Query completed!"], and with the RELATED_QUESTIONS task
    FAILED with that reason. *)
Theorem submitQuery_lessons_without_related (query : string)
    (userId : option string) (w : World CR Tasks)
    (result : SubmitResult CR) (payload : CR) :
  (atResolution api query userId w).2 = Fulfilled (Some result) ->
  Services.lessons result = Some payload ->
  Services.relatedQuestions result = None ->
  statusOf (getTaskByType RELATED_QUESTIONS
              (taskTracker (atResolution api query userId w).1)) <> Some COMPLETED ->
  statusOf (getTaskByType RELATED_QUESTIONS
              (taskTracker (atResolution api query userId w).1)) <> Some FAILED ->
  (exists before after,
     calls (atCatch api query userId w).1 =
       (before ++
          OnTracker (MarkTaskFailed RELATED_QUESTIONS
            "Related questions could not be generated") :: after)%list) /\
  (Services.queryId result = "" \/
   saveQueryMapping api query (Services.queryId result) = Fulfilled tt ->
     (submitQuery api query userId w).2 = Fulfilled tt /\
     state (submitQuery api query userId w).1 =
       mkState false None (Some (Services.queryId result)) (Some payload) None
         (Some "Query completed!") /\
     taskTracker (submitQuery api query userId w).1 =
       updateTaskProgress FLASHCARDS 50
         (markTaskFailed RELATED_QUESTIONS "Related questions could not be generated"
            (taskTracker (atResolution api query userId w).1)) /\
     exists percent,
       getTaskByType RELATED_QUESTIONS (taskTracker (submitQuery api query userId w).1) =
         Some (mkTask FAILED percent
                 (Some "Related questions could not be generated"))).
Proof.
  intros Hres Hlessons Hrelated Hnc Hnf.
  destruct (atResolution_submitted api query userId w result Hres)
    as (Htracked & Hloading & Herror).
  rewrite submitQuery_unfold, atCatch_unfold, Hres.
  set (w2 := (atResolution api query userId w).1) in *.
  unfold afterSubmission, request, doUpdateTaskProgress, doMarkTaskFailed,
    doGetTaskByType, onTracker, setTimeout, called, setState, bind, modify,
    gets, await, ret.
  rewrite Hlessons, Hrelated. cbn.
  rewrite (bool_decide_eq_true_2 _ Hnc), (bool_decide_eq_true_2 _ Hnf). cbn.
  split.
  { destruct (truthy (Services.queryId result)); cbn;
      [destruct (saveQueryMapping api query (Services.queryId result)); cbn |].
    all: eexists (calls w2 ++ [OnTracker (GetTaskByType RELATED_QUESTIONS)])%list,
           _; rewrite <- !app_assoc; cbn; reflexivity. }
  intros Hsave.
  assert (Hmark : exists percent,
    getTaskByType RELATED_QUESTIONS
      (tasksUpdate FLASHCARDS 50
         (tasksFailed RELATED_QUESTIONS "Related questions could not be generated"
            (taskTracker w2))) =
    Some (mkTask FAILED percent (Some "Related questions could not be generated"))).
  { destruct (Htracked RELATED_QUESTIONS) as [task Htask].
    exists (progressPercent task).
    rewrite tasksUpdate_other by discriminate.
    rewrite tasksFailed_same, Htask. reflexivity. }
  destruct Hsave as [Hempty | Hsaved].
  - rewrite Hempty. cbn. rewrite Herror. repeat split. exact Hmark.
  - destruct (truthy (Services.queryId result)); cbn;
      [rewrite Hsaved; cbn |]; rewrite Herror; repeat split; exact Hmark.
Qed.

End SubmissionClaims.

Section SubmissionClaimsRun.

Import ApiQuery Scenario.

Lemma onProgress_classification_witness :
  statusOf (getTaskByType LESSONS
              (taskTracker (onProgress "Lessons ready" submitting).1)) =
    Some COMPLETED.
Proof.
  pose proof (onProgress_classification (CR := string) "Lessons ready" submitting)
    as (_ & _ & _ & Hready & _).
  exact (proj1 (proj2 (proj2 (Hready eq_refl eq_refl))
                  (tasksStart_tracked _ _))).
Defined.

(** C6 as the spec states it fails: a text that contains ["Lessons ready"]
    after ["submitted"] is taken by the first branch, which leaves LESSONS
    pending and does not touch FLASHCARDS. *)
Lemma lessons_ready_after_submitted :
  includes "Query submitted. Lessons ready soon" "Lessons ready" = true /\
  calls (onProgress "Query submitted. Lessons ready soon" submitting).1 =
    [OnTracker (UpdateTaskProgress LESSONS 20);
     OnTracker (UpdateTaskProgress RELATED_QUESTIONS 10)] /\
  getTaskByType LESSONS
    (taskTracker (onProgress "Query submitted. Lessons ready soon" submitting).1) =
    Some (mkTask PENDING 20 None) /\
  getTaskByType RELATED_QUESTIONS
    (taskTracker (onProgress "Query submitted. Lessons ready soon" submitting).1) =
    Some (mkTask PENDING 10 None) /\
  getTaskByType FLASHCARDS
    (taskTracker (onProgress "Query submitted. Lessons ready soon" submitting).1) =
    Some (mkTask PENDING 0 None).
Proof. repeat split. Qed.

Lemma submitQuery_lessons_without_related_witness :
  state (submitQuery fresh "photosynthesis" None idle).1 =
    mkState false None (Some "q1") (Some lessonsPayload) None
      (Some "Query completed!").
Proof.
  pose proof (submitQuery_lessons_without_related fresh "photosynthesis" None
                idle (mkResult "q1" (Some lessonsPayload) None) lessonsPayload
                eq_refl eq_refl eq_refl ltac:(discriminate) ltac:(discriminate))
    as [_ Hcommit].
  exact (proj1 (proj2 (Hcommit (or_intror eq_refl)))).
Defined.

(** C7 as the spec states it fails: the submission resolves with lessons
    and without related questions while RELATED_QUESTIONS is pending, but
    storing the mapping throws; the run ends on the error path, with
    nothing committed and no task record left. *)
Lemma lessons_without_related_save_fails :
  (atResolution saveThrows "photosynthesis" None idle).2 =
    Fulfilled (Some (mkResult "q1" (Some lessonsPayload) None)) /\
  getTaskByType RELATED_QUESTIONS
    (taskTracker (atResolution saveThrows "photosynthesis" None idle).1) =
    Some (mkTask PENDING 50 None) /\
  state (submitQuery saveThrows "photosynthesis" None idle).1 =
    mkState false (Some "QuotaExceededError") None None None None /\
  getTaskByType RELATED_QUESTIONS
    (taskTracker (submitQuery saveThrows "photosynthesis" None idle).1) = None.
Proof. repeat split. Qed.

End SubmissionClaimsRun.

(** ** [useQueryContent] *)

Section ContentFetch.

Import QueryContent.

Context {CR : Type}.
Variable api : Answers CR.

(** C8.  [getFlashcards] and [getQuiz] first write [loading = true] and
    [error = null], then make their one call to the API client.  When it
    succeeds they write [loading = false] and return the payload; when it
    fails they write the message to [error], then [loading = false], and
    return [null].  The message is the one the failure carries, or the
    fallback "Failed to get flashcards" / "Failed to get quiz" for a thrown
    value that is no [Error].  [getQuiz] without a lesson index asks for
    lesson 0. *)
Theorem content_fetch_runs (queryId : string) (lessonIndex : option Z)
    (w : World) :
  getFlashcards api queryId lessonIndex w =
    match
      match lessonIndex with
      | Some index => getFlashcardsByLesson api queryId index
      | None => Services.getFlashcards api queryId
      end
    with
    | Fulfilled payload =>
        (mkWorld false None
           (events w ++
              [SetLoading true; SetError None;
               Called match lessonIndex with
                      | Some index => GetFlashcardsByLesson queryId index
                      | None => GetFlashcards queryId
                      end;
               SetLoading false]),
         Fulfilled (Some payload))
    | Rejected e =>
        (mkWorld false (Some (errorMessage "Failed to get flashcards" e))
           (events w ++
              [SetLoading true; SetError None;
               Called match lessonIndex with
                      | Some index => GetFlashcardsByLesson queryId index
                      | None => GetFlashcards queryId
                      end;
               SetError (Some (errorMessage "Failed to get flashcards" e));
               SetLoading false]),
         Fulfilled None)
    end /\
  getQuiz api queryId lessonIndex w =
    match Services.getQuiz api queryId (default 0 lessonIndex) with
    | Fulfilled payload =>
        (mkWorld false None
           (events w ++
              [SetLoading true; SetError None;
               Called (GetQuiz queryId (default 0 lessonIndex));
               SetLoading false]),
         Fulfilled (Some payload))
    | Rejected e =>
        (mkWorld false (Some (errorMessage "Failed to get quiz" e))
           (events w ++
              [SetLoading true; SetError None;
               Called (GetQuiz queryId (default 0 lessonIndex));
               SetError (Some (errorMessage "Failed to get quiz" e));
               SetLoading false]),
         Fulfilled None)
    end /\
  getQuiz api queryId None w = getQuiz api queryId (Some 0) w /\
  (forall fallback code message,
     errorMessage fallback (APIClientError code message) = message) /\
  (forall fallback message, errorMessage fallback (Error message) = message) /\
  (forall fallback, errorMessage fallback NotAnError = fallback).
Proof.
  split; [| split; [| by repeat split]].
  - unfold getFlashcards, request, setLoading, setError, bind, tryCatch,
      modify, await, ret.
    destruct lessonIndex as [index |]; cbn;
      [destruct (getFlashcardsByLesson api queryId index)
      | destruct (Services.getFlashcards api queryId)];
      cbn; by rewrite <- !app_assoc.
  - unfold getQuiz, request, setLoading, setError, bind, tryCatch,
      modify, await, ret.
    destruct (Services.getQuiz api queryId (default 0 lessonIndex));
      cbn; by rewrite <- !app_assoc.
Qed.

End ContentFetch.

(** ** The page shell *)

Section ShellFacts.

Import AppShell.

Lemma insertBy_In {A} (compare : A -> A -> Z) (x e : A) (sorted : list A) :
  In e (insertBy compare x sorted) <-> e = x \/ In e sorted.
Proof.
  induction sorted as [| y rest IH]; cbn.
  - intuition.
  - destruct (decide (compare x y <= 0)); cbn; [intuition |].
    rewrite IH. intuition.
Qed.

Lemma sort_In {A} (compare : A -> A -> Z) (e : A) (l : list A) :
  In e (sort compare l) <-> In e l.
Proof.
  induction l as [| x l IH]; cbn; [done |].
  fold (sort compare l). rewrite insertBy_In, IH. intuition.
Qed.

Lemma sort_nil {A} (compare : A -> A -> Z) (l : list A) :
  sort compare l = [] -> l = [].
Proof.
  destruct l as [| x l]; [done |]. intros Hnil.
  assert (Hin : In x (sort compare (x :: l))) by (apply sort_In; by left).
  rewrite Hnil in Hin. destruct Hin.
Qed.

(** Sorted by [b.createdAt - a.createdAt], the array starts with an entry
    that no entry is more recent than. *)
Lemma sort_head_most_recent (l : list LessonProgress)
    (first : LessonProgress) (rest : list LessonProgress) :
  sort (fun a b => createdAt b - createdAt a) l = first :: rest ->
  forall e, In e l -> createdAt e <= createdAt first.
Proof.
  revert first rest. induction l as [| x l IH]; intros first rest Hsort e He.
  - destruct He.
  - cbn in Hsort. fold (sort (fun a b => createdAt b - createdAt a) l) in Hsort.
    destruct (sort (fun a b => createdAt b - createdAt a) l)
      as [| h t] eqn:Hl.
    + apply sort_nil in Hl. subst l. cbn in Hsort.
      injection Hsort as <- _. destruct He as [<- | []]. lia.
    + cbn in Hsort.
      destruct (decide (createdAt h - createdAt x <= 0)) as [Hle | Hgt];
        injection Hsort as <- _.
      * destruct He as [<- | He]; [lia |].
        specialize (IH h t eq_refl e He). lia.
      * destruct He as [<- | He]; [lia |].
        exact (IH h t eq_refl e He).
Qed.

End ShellFacts.

Section ShellClaims.

Import AppShell.

Variable getLastAccessedLesson : string -> Outcome Z.

(** C9.  With no current topic, [handleShowExplanation] goes to the home
    view when there is no lesson-progress entry.  When there are entries it
    sorts them by [createdAt], latest first, takes the first one, which no
    entry is more recent than, and runs [handleStartExploration] for its
    topic with [fromLessonContinue = true]; that resumes the entry at the
    step the lesson-progress store gives for its query id. *)
Theorem handleShowExplanation_without_topic (s : Shell) :
  currentTopic s = "" ->
  (lessonProgressList s = [] ->
     handleShowExplanation getLastAccessedLesson s =
       (mkShell home "" (currentStepIndex s) (isUserQuery s) [], Fulfilled tt)) /\
  (lessonProgressList s <> [] ->
     exists mostRecent rest,
       sort (fun a b => createdAt b - createdAt a) (lessonProgressList s) =
         mostRecent :: rest /\
       In mostRecent (lessonProgressList s) /\
       (forall e, In e (lessonProgressList s) ->
                  createdAt e <= createdAt mostRecent) /\
       handleShowExplanation getLastAccessedLesson s =
         handleStartExploration getLastAccessedLesson (topic mostRecent)
           None (Some true)
           (mkShell (currentState s) "" (currentStepIndex s) (isUserQuery s)
                    (mostRecent :: rest)) /\
       handleShowExplanation getLastAccessedLesson s =
         match getLastAccessedLesson (queryId mostRecent) with
         | Fulfilled step =>
             (mkShell explanation (topic mostRecent) step true
                      (mostRecent :: rest),
              Fulfilled tt)
         | Rejected e =>
             (mkShell (currentState s) (topic mostRecent) (currentStepIndex s)
                      (isUserQuery s) (mostRecent :: rest),
              Rejected e)
         end).
Proof.
  intros Htopic. split.
  - intros Hnone.
    unfold handleShowExplanation, setCurrentState, bind, gets, modify.
    cbv beta iota. rewrite Htopic. cbn [truthy]. rewrite Hnone.
    destruct (decide (0 < Z.of_nat (length (@nil LessonProgress))))
      as [Hlen | _]; [cbn in Hlen; lia |].
    cbv beta. by rewrite Htopic, Hnone.
  - intros Hsome.
    destruct (sort (fun a b => createdAt b - createdAt a) (lessonProgressList s))
      as [| mostRecent rest] eqn:Hsort.
    { apply sort_nil in Hsort. contradiction. }
    exists mostRecent, rest. split; [reflexivity |].
    split.
    { apply (sort_In (fun a b => createdAt b - createdAt a)).
      rewrite Hsort. by left. }
    split; [exact (sort_head_most_recent _ _ _ Hsort) |].
    assert (Hrun : handleShowExplanation getLastAccessedLesson s =
      handleStartExploration getLastAccessedLesson (topic mostRecent) None (Some true)
        (mkShell (currentState s) "" (currentStepIndex s) (isUserQuery s)
                 (mostRecent :: rest))).
    { unfold handleShowExplanation, sortLessonProgressList, bind, gets, modify.
      cbv beta iota. rewrite Htopic. cbn [truthy].
      destruct (decide (0 < Z.of_nat (length (lessonProgressList s)))) as [_ | Hlen].
      - cbn [lessonProgressList currentState currentTopic currentStepIndex
             isUserQuery].
        rewrite Hsort. reflexivity.
      - destruct (lessonProgressList s); [contradiction | cbn in Hlen; lia]. }
    split; [exact Hrun |].
    rewrite Hrun.
    unfold handleStartExploration, setCurrentTopic, setCurrentStepIndex,
      setIsUserQuery, setCurrentState, bind, gets, modify, await.
    cbn [lessonProgressList find].
    rewrite bool_decide_eq_true_2 by reflexivity.
    by destruct (getLastAccessedLesson (queryId mostRecent)).
Qed.

End ShellClaims.

Section ShellClaimsRun.

Import AppShell Scenario.

Lemma handleShowExplanation_without_topic_witness :
  handleShowExplanation lastAccessed atHome =
    (mkShell explanation "tides" 3 true
       [ mkLesson "tides" "q2" 1700000500000;
         mkLesson "photosynthesis" "q1" 1700000000000 ],
     Fulfilled tt).
Proof.
  destruct (proj2 (handleShowExplanation_without_topic lastAccessed atHome
                     eq_refl) ltac:(discriminate))
    as (mostRecent & rest & Hsort & _ & _ & _ & Hrun).
  injection Hsort as <- <-.
  exact Hrun.
Defined.

End ShellClaimsRun.

(** ** [useApiQuery]: how every run ends *)

Section RunFacts.

Import ApiQuery ApiQueryRuns.

Context {CR T : Type} `{!TaskTracker T}.
Variable api : Answers CR.

Local Ltac run_after :=
  unfold afterSubmission, request, doUpdateTaskProgress, doMarkTaskFailed,
    doGetTaskByType, onTracker, setTimeout, called, setState, bind, modify,
    gets, await, ret.

Local Ltac split_after result :=
  destruct (present (Services.lessons result));
  destruct (present (Services.relatedQuestions result)); cbn;
  repeat (match goal with
          | |- context [bool_decide ?P] => destruct (bool_decide P)
          end; cbn).

(** Only [saveQueryMapping] can make the code after the submission fail. *)
Lemma afterSubmission_outcome (query : string) (result : SubmitResult CR)
    (w : World CR T) :
  (afterSubmission api query result w).2 =
    if truthy (Services.queryId result) then
      match saveQueryMapping api query (Services.queryId result) with
      | Fulfilled _ => Fulfilled tt
      | Rejected e => Rejected e
      end
    else Fulfilled tt.
Proof.
  run_after. split_after result;
    destruct (truthy (Services.queryId result)); cbn; try reflexivity;
    by destruct (saveQueryMapping api query (Services.queryId result)).
Qed.

Lemma afterSubmission_commit (query : string) (result : SubmitResult CR)
    (w : World CR T) :
  (afterSubmission api query result w).2 = Fulfilled tt ->
  state (afterSubmission api query result w).1 =
    mkState false (error (state w)) (Some (Services.queryId result))
      (Services.lessons result) (Services.relatedQuestions result)
      (Some "Query completed!").
Proof.
  run_after. split_after result;
    destruct (truthy (Services.queryId result)); cbn; try reflexivity;
    by destruct (saveQueryMapping api query (Services.queryId result)).
Qed.

(** What the code after the submission does to the tracker and the timers,
    whether or not storing the mapping fails afterwards. *)
Lemma afterSubmission_effects (query : string) (result : SubmitResult CR)
    (w : World CR T) :
  taskTracker (afterSubmission api query result w).1 =
    (if present (Services.lessons result)
     then updateTaskProgress FLASHCARDS 50 else fun t => t)
      ((if present (Services.lessons result) &&
           negb (present (Services.relatedQuestions result)) &&
           bool_decide (statusOf (getTaskByType RELATED_QUESTIONS (taskTracker w))
                        <> Some COMPLETED) &&
           bool_decide (statusOf (getTaskByType RELATED_QUESTIONS (taskTracker w))
                        <> Some FAILED)
        then markTaskFailed RELATED_QUESTIONS
               "Related questions could not be generated"
        else fun t => t) (taskTracker w)) /\
  timers (afterSubmission api query result w).1 =
    (timers w ++
       if present (Services.lessons result) then [flashcardsTimers] else [])%list.
Proof.
  run_after. split_after result;
    destruct (truthy (Services.queryId result)); cbn;
    try destruct (saveQueryMapping api query (Services.queryId result)); cbn;
    by rewrite ?app_nil_r.
Qed.

(** How the first part of the [try] block ends, read off the answers. *)
Lemma untilResolved_outcome (query : string) (userId : option string)
    (w : World CR T) :
  (untilResolved api query userId w).2 =
    match getCachedQueryId api query with
    | Rejected e => Rejected e
    | Fulfilled _ =>
        if served api query then Fulfilled None
        else
          match snd (submitQueryAndWait api (mkRequest query userId)) with
          | Fulfilled result => Fulfilled (Some result)
          | Rejected e => Rejected e
          end
    end.
Proof.
  unfold untilResolved, served, request, called, bind, modify, await, ret.
  pose proof (awaitSubmission_runs api query userId) as Hsubmit.
  generalize dependent (awaitSubmission api query userId).
  intros submitRun Hsubmit.
  assert (Hfresh : forall w1,
    (let (w', o) := submitRun w1 in
     match o with
     | Fulfilled a => (w', Fulfilled (Some a))
     | Rejected e => (w', @Rejected (option (SubmitResult CR)) e)
     end).2 =
    match snd (submitQueryAndWait api (mkRequest query userId)) with
    | Fulfilled result => Fulfilled (Some result)
    | Rejected e => Rejected e
    end).
  { intros w1. destruct (Hsubmit w1) as [Hout _].
    destruct (submitRun w1) as [w2 o]; cbn in Hout; subst o.
    by destruct (snd (submitQueryAndWait api (mkRequest query userId))). }
  destruct (getCachedQueryId api query) as [[id |] | e]; cbn;
    [| apply Hfresh | reflexivity].
  destruct (truthy id); cbn; [| apply Hfresh].
  unfold loadCached, called, setState, bind, tryCatch, modify, ret.
  destruct (getLessons api id); cbn; [reflexivity | apply Hfresh].
Qed.

(** When the cached branch returns, the state is the one it committed. *)
Lemma untilResolved_served (query : string) (userId : option string)
    (w : World CR T) :
  (untilResolved api query userId w).2 = Fulfilled None ->
  exists id payload,
    state (untilResolved api query userId w).1 =
      mkState false (error (state w)) (Some id) (Some payload)
        (fulfilledValue (getRelatedQuestions api id))
        (Some "Cached content loaded!") /\
    taskTracker (untilResolved api query userId w).1 = taskTracker w /\
    timers (untilResolved api query userId w).1 = timers w.
Proof.
  unfold untilResolved, request, called, bind, modify, await, ret.
  generalize (awaitSubmission api query userId). intros submitRun.
  assert (Hfresh : forall w1,
    (let (w', o) := submitRun w1 in
     match o with
     | Fulfilled a => (w', Fulfilled (Some a))
     | Rejected e => (w', @Rejected (option (SubmitResult CR)) e)
     end).2 <> Fulfilled None).
  { intros w1. by destruct (submitRun w1) as [w2 [a | e]]. }
  destruct (getCachedQueryId api query) as [[id |] | e]; cbn;
    [| intros Hn; by apply Hfresh in Hn | discriminate].
  destruct (truthy id); cbn; [| intros Hn; by apply Hfresh in Hn].
  unfold loadCached, called, setState, bind, tryCatch, modify, ret.
  destruct (getLessons api id) as [payload | e]; cbn.
  - intros _. by exists id, payload.
  - intros Hn. by apply Hfresh in Hn.
Qed.

(** The [try] block ends in the failure [failure] computes, or in none. *)
Lemma atCatch_outcome (query : string) (userId : option string)
    (w : World CR T) :
  (atCatch api query userId w).2 =
    match failure api query userId with
    | Some e => Rejected e
    | None => Fulfilled tt
    end.
Proof.
  rewrite atCatch_unfold.
  unfold atResolution, bind, markLoading, setState, modify.
  match goal with
  | |- context [untilResolved api query userId ?w0] =>
      pose proof (untilResolved_outcome query userId w0) as Hout;
      destruct (untilResolved api query userId w0) as [w1 o]
  end.
  cbn in Hout. subst o. unfold failure. cbn [fst snd].
  destruct (getCachedQueryId api query) as [c | e]; [| reflexivity].
  destruct (served api query); [reflexivity |].
  destruct (snd (submitQueryAndWait api (mkRequest query userId)))
    as [result | e]; [| reflexivity].
  rewrite afterSubmission_outcome.
  destruct (truthy (Services.queryId result)); [| reflexivity].
  by destruct (saveQueryMapping api query (Services.queryId result)).
Qed.

(** When the [try] block ends without a failure, it ends in one of the two
    terminal writes. *)
Lemma atCatch_fulfilled (query : string) (userId : option string)
    (w : World CR T) :
  (atCatch api query userId w).2 = Fulfilled tt ->
  loading (state (atCatch api query userId w).1) = false /\
  error (state (atCatch api query userId w).1) = None /\
  is_Some (queryId (state (atCatch api query userId w).1)) /\
  (progress (state (atCatch api query userId w).1) = Some "Cached content loaded!" \/
   progress (state (atCatch api query userId w).1) = Some "Query completed!").
Proof.
  rewrite atCatch_unfold.
  unfold atResolution, bind, markLoading, setState, modify.
  match goal with
  | |- context [untilResolved api query userId ?w0] =>
      pose proof (untilResolved_served query userId w0) as Hserved;
      pose proof (untilResolved_runs api query userId w0) as Hruns;
      destruct (untilResolved api query userId w0) as [w1 [[result |] | e]]
  end; cbn [fst snd] in *; [| | discriminate].
  - intros Hdone. rewrite (afterSubmission_commit _ _ _ Hdone). cbn.
    destruct Hruns as [Hnone | (_ & Herror & _)]; [discriminate |].
    rewrite Herror. cbn. repeat split; [by eexists | by right].
  - intros _. destruct (Hserved eq_refl) as (id & payload & -> & _). cbn.
    repeat split; [by eexists | by left].
Qed.

End RunFacts.

(** ** [useApiQuery]: the calls and the timers of a run *)

Section CallFacts.

Import ApiQuery ApiQueryRuns.

Context {CR T : Type} `{!TaskTracker T}.
Variable api : Answers CR.

(** A counter that only sees submissions and stored mappings. *)
Variable f : Call -> bool.
Hypothesis f_quiet :
  forall c, isSubmission c = false -> isSave c = false -> f c = false.

Lemma count_app (l l' : list Call) :
  count f (l ++ l') = (count f l + count f l')%nat.
Proof. induction l as [| c l IH]; cbn; [done | rewrite IH; lia]. Qed.

Lemma count_quiet (l : list Call) (c : Call) :
  isSubmission c = false -> isSave c = false ->
  count f (l ++ [c]) = count f l.
Proof.
  intros H1 H2. rewrite count_app. cbn. rewrite (f_quiet c H1 H2). lia.
Qed.

Lemma onProgress_calls (text : string) (w : World CR T) :
  count f (calls (onProgress text w).1) = count f (calls w) /\
  timers (onProgress text w).1 = timers w.
Proof.
  unfold onProgress, doUpdateTaskProgress, doMarkTaskCompleted,
    doMarkTaskFailed, doGetTaskByType, onTracker, called, setState, bind,
    modify, gets, ret.
  cbn.
  repeat (match goal with
          | |- context [if includes ?s ?k then _ else _] =>
              destruct (includes s k)
          | |- context [decide ?P] => destruct (decide P)
          end; cbn);
    by rewrite ?count_quiet.
Qed.

Lemma forEach_onProgress_calls (texts : list string) (w : World CR T) :
  count f (calls (forEach onProgress texts w).1) = count f (calls w) /\
  timers (forEach onProgress texts w).1 = timers w.
Proof.
  revert w. induction texts as [| text texts IH]; intros w; cbn; [done |].
  unfold bind.
  destruct (onProgress_calls text w) as [Hc Ht].
  destruct (onProgress_runs text w) as [Hout _].
  destruct (onProgress text w) as [w1 o]; cbn in *; subst o.
  destruct (IH w1) as [Hc' Ht']. split; congruence.
Qed.

Lemma awaitSubmission_calls (query : string) (userId : option string)
    (w : World CR T) :
  count f (calls (awaitSubmission api query userId w).1) =
    (count f (calls w) +
     if f (SubmitQueryAndWait (mkRequest query userId)) then 1 else 0)%nat /\
  timers (awaitSubmission api query userId w).1 = timers w.
Proof.
  unfold awaitSubmission, request, doStartTracking, onTracker, called,
    setState, bind, tryCatch, modify, await.
  destruct (healthCheck api); cbn;
    match goal with
    | |- context [forEach onProgress ?l ?w1] =>
        destruct (forEach_onProgress_calls l w1) as [Hc Ht];
        destruct (forEach_onProgress_runs l w1) as [Hout _];
        destruct (forEach onProgress l w1) as [w2 o]; cbn in *; subst o
    end;
    (split; [| by destruct (submitQueryAndWait api _).2]);
    destruct (submitQueryAndWait api _).2; cbn; rewrite Hc;
    rewrite !count_app; cbn [count];
    rewrite (f_quiet HealthCheck), (f_quiet (OnTracker _)) by done;
    destruct (f (SubmitQueryAndWait _)); lia.
Qed.

Lemma afterSubmission_calls (query : string) (result : SubmitResult CR)
    (w : World CR T) :
  count f (calls (afterSubmission api query result w).1) =
    (count f (calls w) +
     if truthy (Services.queryId result)
     then (if f (SaveQueryMapping query (Services.queryId result)) then 1 else 0)
     else 0)%nat.
Proof.
  unfold afterSubmission, request, doUpdateTaskProgress, doMarkTaskFailed,
    doGetTaskByType, onTracker, setTimeout, called, setState, bind, modify,
    gets, await, ret.
  destruct (present (Services.lessons result));
    destruct (present (Services.relatedQuestions result)); cbn;
    repeat (match goal with
            | |- context [bool_decide ?P] => destruct (bool_decide P)
            end; cbn);
    destruct (truthy (Services.queryId result)); cbn;
    try destruct (saveQueryMapping api query (Services.queryId result)); cbn;
    rewrite ?count_app; cbn [count];
    rewrite ?(f_quiet (OnTracker _)) by done;
    try destruct (f (SaveQueryMapping _ _)); lia.
Qed.

Lemma untilResolved_calls (query : string) (userId : option string)
    (w : World CR T) :
  count f (calls (untilResolved api query userId w).1) =
    (count f (calls w) +
     match getCachedQueryId api query with
     | Rejected _ => 0
     | Fulfilled _ =>
         if served api query then 0
         else if f (SubmitQueryAndWait (mkRequest query userId)) then 1 else 0
     end)%nat /\
  timers (untilResolved api query userId w).1 = timers w.
Proof.
  unfold untilResolved, served, request, called, bind, modify, await, ret.
  pose proof (awaitSubmission_calls query userId) as Hsubmit.
  generalize dependent (awaitSubmission api query userId).
  intros submitRun Hsubmit.
  assert (Hfresh : forall w1,
    let r := (let (w', o) := submitRun w1 in
              match o with
              | Fulfilled a => (w', Fulfilled (Some a))
              | Rejected e => (w', @Rejected (option (SubmitResult CR)) e)
              end) in
    count f (calls r.1) =
      (count f (calls w1) +
       if f (SubmitQueryAndWait (mkRequest query userId)) then 1 else 0)%nat /\
    timers r.1 = timers w1).
  { intros w1. destruct (Hsubmit w1) as [Hc Ht].
    by destruct (submitRun w1) as [w2 [a | e]]. }
  destruct (getCachedQueryId api query) as [[id |] | e]; cbn.
  - destruct (truthy id); cbn.
    + unfold loadCached, called, setState, bind, tryCatch, modify, ret.
      destruct (getLessons api id); cbn.
      * rewrite !count_quiet by done. split; [lia | done].
      * match goal with
        | |- context [submitRun ?w0] => destruct (Hfresh w0) as [Hc Ht]
        end.
        cbn in Hc, Ht. rewrite Hc, Ht. cbn. rewrite !count_quiet by done. done.
    + match goal with
      | |- context [submitRun ?w0] => destruct (Hfresh w0) as [Hc Ht]
      end.
      cbn in Hc, Ht. rewrite Hc, Ht. cbn. rewrite !count_quiet by done. done.
  - match goal with
    | |- context [submitRun ?w0] => destruct (Hfresh w0) as [Hc Ht]
    end.
    cbn in Hc, Ht. rewrite Hc, Ht. cbn. rewrite !count_quiet by done. done.
  - rewrite !count_quiet by done. split; [lia | done].
Qed.

(** The calls a whole run adds, as [f] counts them. *)
Lemma submitQuery_calls (query : string) (userId : option string)
    (w : World CR T) :
  count f (calls (submitQuery api query userId w).1) =
    (count f (calls w) +
     match getCachedQueryId api query with
     | Rejected _ => 0
     | Fulfilled _ =>
         if served api query then 0
         else
           (if f (SubmitQueryAndWait (mkRequest query userId)) then 1 else 0) +
           match snd (submitQueryAndWait api (mkRequest query userId)) with
           | Rejected _ => 0
           | Fulfilled result =>
               if truthy (Services.queryId result)
               then (if f (SaveQueryMapping query (Services.queryId result))
                     then 1 else 0)
               else 0
           end
     end)%nat.
Proof.
  assert (Hcatch : forall e w1,
            count f (calls (@onError CR T _ e w1).1) = count f (calls w1)).
  { intros e w1. unfold onError, doReset, onTracker, setState, bind, modify.
    cbn. by rewrite count_quiet. }
  rewrite submitQuery_unfold.
  assert (Hblock :
    count f (calls (atCatch api query userId w).1) =
    (count f (calls w) +
     match getCachedQueryId api query with
     | Rejected _ => 0
     | Fulfilled _ =>
         if served api query then 0
         else
           (if f (SubmitQueryAndWait (mkRequest query userId)) then 1 else 0) +
           match snd (submitQueryAndWait api (mkRequest query userId)) with
           | Rejected _ => 0
           | Fulfilled result =>
               if truthy (Services.queryId result)
               then (if f (SaveQueryMapping query (Services.queryId result))
                     then 1 else 0)
               else 0
           end
     end)%nat).
  { rewrite atCatch_unfold.
    unfold atResolution, bind, markLoading, setState, modify.
    match goal with
    | |- context [untilResolved api query userId ?w0] =>
        pose proof (untilResolved_outcome api query userId w0) as Hout;
        destruct (untilResolved_calls query userId w0) as [Hc _];
        destruct (untilResolved api query userId w0) as [w1 o]
    end.
    cbn [fst snd] in *. subst o. cbn [calls] in Hc.
    destruct (getCachedQueryId api query) as [c | e]; cbn [fst snd];
      [| by rewrite Hc].
    destruct (served api query); cbn [fst snd]; [by rewrite Hc |].
    destruct (snd (submitQueryAndWait api (mkRequest query userId)))
      as [result | e]; cbn [fst snd]; [| rewrite Hc; lia].
    rewrite afterSubmission_calls, Hc. lia. }
  destruct ((atCatch api query userId w).2); cbn [fst];
    [| rewrite Hcatch]; exact Hblock.
Qed.

End CallFacts.

(** ** [useApiQuery]: properties of every run *)

Section RunProperties.

Import ApiQuery ApiQueryRuns.

Context {CR T : Type} `{!TaskTracker T}.
Variable api : Answers CR.

Lemma atResolution_error (query : string) (userId : option string)
    (w : World CR T) (result : SubmitResult CR) :
  (atResolution api query userId w).2 = Fulfilled (Some result) ->
  error (state (atResolution api query userId w).1) = None /\
  timers (atResolution api query userId w).1 = timers w.
Proof.
  intros Hres.
  unfold atResolution, bind, markLoading, setState, modify in *.
  match goal with
  | |- context [untilResolved api query userId ?w0] =>
      destruct (untilResolved_runs api query userId w0) as [Hnone | Hk];
      destruct (untilResolved_calls api (fun _ => false)
                  (fun _ _ _ => eq_refl) query userId w0) as [_ Ht]
  end.
  - rewrite Hnone in Hres. discriminate.
  - destruct Hk as (_ & He & _). by rewrite He, Ht.
Qed.

(** X1.  Every run of [submitQuery] fulfils its promise and ends with
    [loading = false], in one of two shapes: no error, a query id and one of
    the two success texts in [progress]; or an error message,
    [progress = null] and the content cells as they were before the call. *)
Theorem submitQuery_terminal_state (query : string) (userId : option string)
    (w : World CR T) :
  (submitQuery api query userId w).2 = Fulfilled tt /\
  loading (state (submitQuery api query userId w).1) = false /\
  ((error (state (submitQuery api query userId w).1) = None /\
    is_Some (queryId (state (submitQuery api query userId w).1)) /\
    (progress (state (submitQuery api query userId w).1) =
       Some "Cached content loaded!" \/
     progress (state (submitQuery api query userId w).1) =
       Some "Query completed!")) \/
   (exists e,
      error (state (submitQuery api query userId w).1) = Some (errorMessage e) /\
      progress (state (submitQuery api query userId w).1) = None /\
      queryId (state (submitQuery api query userId w).1) = queryId (state w) /\
      lessons (state (submitQuery api query userId w).1) = lessons (state w) /\
      relatedQuestions (state (submitQuery api query userId w).1) =
        relatedQuestions (state w))).
Proof.
  split; [apply submitQuery_resolves |].
  rewrite submitQuery_unfold.
  destruct ((atCatch api query userId w).2) as [[] | e] eqn:Hend.
  - destruct (atCatch_fulfilled api query userId w Hend)
      as (Hl & He & Hid & Hp).
    cbn [fst]. split; [exact Hl |]. left. by repeat split.
  - destruct (atCatch_rejected api query userId w e Hend)
      as (_ & _ & Hid & Hlessons & Hrelated).
    unfold onError, doReset, onTracker, setState, bind, modify. cbn.
    split; [done |]. right. exists e. by repeat split.
Qed.

(** X2.  The error a run of [submitQuery] shows is decided by three answers
    only: a throwing cache lookup, a rejected submission, or a failing
    [saveQueryMapping] after a submission that returned a non-empty id.
    Failures of [getLessons], [getRelatedQuestions] and [healthCheck] never
    reach [error]. *)
Theorem submitQuery_error_cell (query : string) (userId : option string)
    (w : World CR T) :
  error (state (submitQuery api query userId w).1) =
    errorMessage <$> failure api query userId.
Proof.
  rewrite submitQuery_unfold.
  pose proof (atCatch_outcome api query userId w) as Hout.
  destruct (failure api query userId) as [e |]; rewrite Hout; cbn [fst].
  - reflexivity.
  - by destruct (atCatch_fulfilled api query userId w Hout) as (_ & He & _).
Qed.

(** X4.  A run calls [submitQueryAndWait] exactly once unless the cache
    lookup throws or the cached content is served, in which cases it does
    not call it; it calls [saveQueryMapping] exactly once when that
    submission resolves with a non-empty id, and otherwise not at all. *)
Theorem submitQuery_submits_once (query : string) (userId : option string)
    (w : World CR T) :
  count isSubmission (calls (submitQuery api query userId w).1) =
    (count isSubmission (calls w) +
     match getCachedQueryId api query with
     | Rejected _ => 0
     | Fulfilled _ => if served api query then 0 else 1
     end)%nat /\
  count isSave (calls (submitQuery api query userId w).1) =
    (count isSave (calls w) +
     match getCachedQueryId api query with
     | Rejected _ => 0
     | Fulfilled _ =>
         if served api query then 0
         else
           match snd (submitQueryAndWait api (mkRequest query userId)) with
           | Rejected _ => 0
           | Fulfilled result =>
               if truthy (Services.queryId result) then 1 else 0
           end
     end)%nat.
Proof.
  split.
  - rewrite (submitQuery_calls api isSubmission) by (intros; assumption).
    f_equal. destruct (getCachedQueryId api query); [| done].
    destruct (served api query); [done |]. cbn.
    destruct (snd (submitQueryAndWait api (mkRequest query userId)))
      as [result | e]; [| done].
    by destruct (truthy (Services.queryId result)).
  - rewrite (submitQuery_calls api isSave) by (intros; assumption).
    f_equal.
Qed.

(** X7.  Timers are never cancelled.  A run sets the chain of four timers
    exactly when its submission resolves with lessons, also when storing the
    mapping fails afterwards and the error path resets the tracker; and
    [reset] restores the initial state while leaving every timer in place. *)
Theorem timers_survive_error_and_reset (query : string)
    (userId : option string) (w : World CR T) :
  timers (submitQuery api query userId w).1 =
    (timers w ++
       match getCachedQueryId api query with
       | Rejected _ => []
       | Fulfilled _ =>
           if served api query then []
           else
             match snd (submitQueryAndWait api (mkRequest query userId)) with
             | Rejected _ => []
             | Fulfilled result =>
                 if present (Services.lessons result)
                 then [flashcardsTimers] else []
             end
       end)%list /\
  timers (resetHook (submitQuery api query userId w).1).1 =
    timers (submitQuery api query userId w).1 /\
  state (resetHook (submitQuery api query userId w).1).1 = initialState.
Proof.
  split; [| by split].
  assert (Hblock :
    timers (atCatch api query userId w).1 =
      (timers w ++
         match getCachedQueryId api query with
         | Rejected _ => []
         | Fulfilled _ =>
             if served api query then []
             else
               match snd (submitQueryAndWait api (mkRequest query userId)) with
               | Rejected _ => []
               | Fulfilled result =>
                   if present (Services.lessons result)
                   then [flashcardsTimers] else []
               end
         end)%list).
  { rewrite atCatch_unfold.
    unfold atResolution, bind, markLoading, setState, modify.
    match goal with
    | |- context [untilResolved api query userId ?w0] =>
        pose proof (untilResolved_outcome api query userId w0) as Hout;
        destruct (untilResolved_calls api (fun _ => false)
                    (fun _ _ _ => eq_refl) query userId w0) as [_ Ht];
        destruct (untilResolved api query userId w0) as [w1 o]
    end.
    cbn [fst snd timers] in *. subst o.
    destruct (getCachedQueryId api query) as [c | e]; cbn [fst snd];
      [| by rewrite Ht, app_nil_r].
    destruct (served api query); cbn [fst snd]; [by rewrite Ht, app_nil_r |].
    destruct (snd (submitQueryAndWait api (mkRequest query userId)))
      as [result | e]; cbn [fst snd]; [| by rewrite Ht, app_nil_r].
    destruct (afterSubmission_effects api query result w1) as [_ Htimers].
    by rewrite Htimers, Ht. }
  rewrite submitQuery_unfold.
  destruct ((atCatch api query userId w).2); cbn [fst]; exact Hblock.
Qed.

(** X5.  A submission that resolves without lessons is committed all the
    same: the run ends with [lessons = null], the query id and
    [progress = "Query completed!"]; after the resolution no command reaches
    the tracker and no timer is set. *)
Theorem submitQuery_result_without_lessons (query : string)
    (userId : option string) (w : World CR T) (result : SubmitResult CR) :
  (atResolution api query userId w).2 = Fulfilled (Some result) ->
  Services.lessons result = None ->
  Services.queryId result = "" \/
    saveQueryMapping api query (Services.queryId result) = Fulfilled tt ->
  state (submitQuery api query userId w).1 =
    mkState false None (Some (Services.queryId result)) None
      (Services.relatedQuestions result) (Some "Query completed!") /\
  taskTracker (submitQuery api query userId w).1 =
    taskTracker (atResolution api query userId w).1 /\
  timers (submitQuery api query userId w).1 = timers w.
Proof.
  intros Hres Hlessons Hsave.
  destruct (atResolution_error query userId w result Hres) as [Herror Htimers].
  assert (Hdone : (afterSubmission api query result
                     (atResolution api query userId w).1).2 = Fulfilled tt).
  { rewrite afterSubmission_outcome.
    destruct Hsave as [-> | ->]; [done | by destruct (truthy _)]. }
  rewrite submitQuery_unfold, atCatch_unfold, Hres, Hdone. cbn [fst].
  rewrite (afterSubmission_commit api _ _ _ Hdone), Herror, Hlessons.
  destruct (afterSubmission_effects api query result
              (atResolution api query userId w).1) as [Htracker Htimers'].
  rewrite Htracker, Htimers', Hlessons, Htimers. cbn.
  by rewrite app_nil_r.
Qed.

(** X6.  When the submission resolves with lessons while the related
    questions are there, or their task is already COMPLETED or FAILED, the
    code after the submission does not mark the task failed: up to the end
    of the [try] block the only command on the tracker is
    [updateTaskProgress(FLASHCARDS, 50)], so a failure reason recorded by
    the progress callback stays. *)
Theorem afterSubmission_keeps_settled_task (query : string)
    (userId : option string) (w : World CR T) (result : SubmitResult CR)
    (payload : CR) :
  (atResolution api query userId w).2 = Fulfilled (Some result) ->
  Services.lessons result = Some payload ->
  is_Some (Services.relatedQuestions result) \/
  statusOf (getTaskByType RELATED_QUESTIONS
              (taskTracker (atResolution api query userId w).1)) = Some COMPLETED \/
  statusOf (getTaskByType RELATED_QUESTIONS
              (taskTracker (atResolution api query userId w).1)) = Some FAILED ->
  taskTracker (atCatch api query userId w).1 =
    updateTaskProgress FLASHCARDS 50
      (taskTracker (atResolution api query userId w).1) /\
  timers (atCatch api query userId w).1 = (timers w ++ [flashcardsTimers])%list.
Proof.
  intros Hres Hlessons Hsettled.
  destruct (atResolution_error query userId w result Hres) as [_ Htimers].
  rewrite atCatch_unfold, Hres.
  destruct (afterSubmission_effects api query result
              (atResolution api query userId w).1) as [Htracker Htimers'].
  rewrite Htracker, Htimers', Hlessons, Htimers. cbn [present].
  split; [| reflexivity].
  destruct Hsettled as [[related Hrelated] | [Hstatus | Hstatus]].
  - by rewrite Hrelated.
  - rewrite Hstatus. rewrite (bool_decide_eq_false_2 (Some COMPLETED <> Some COMPLETED))
      by (intros Hne; by apply Hne).
    by rewrite andb_false_r.
  - rewrite Hstatus. rewrite (bool_decide_eq_false_2 (Some FAILED <> Some FAILED))
      by (intros Hne; by apply Hne).
    by rewrite andb_false_r.
Qed.

End RunProperties.

Section HealthCheck.

Import ApiQuery ApiQueryRuns.

Context {CR T : Type} `{!TaskTracker T}.
Variable api : Answers CR.

Lemma awaitSubmission_any_health (answer : Outcome unit) (query : string)
    (userId : option string) (w : World CR T) :
  awaitSubmission (withHealthCheck answer api) query userId w =
  awaitSubmission api query userId w.
Proof.
  unfold awaitSubmission, request, doStartTracking, onTracker, called,
    setState, bind, tryCatch, modify, await.
  cbn [healthCheck withHealthCheck submitQueryAndWait dateNow].
  by destruct answer, (healthCheck api).
Qed.

(** X3.  The health check is advisory: whatever it answers, the run of
    [submitQuery] is the same in its state, its tracker, its calls and its
    timers. *)
Theorem submitQuery_health_check_advisory (answer : Outcome unit)
    (query : string) (userId : option string) (w : World CR T) :
  submitQuery (withHealthCheck answer api) query userId w =
  submitQuery api query userId w.
Proof.
  unfold submitQuery, markLoading, tryBlock, untilResolved, request, called,
    setState, bind, tryCatch, modify, await, ret.
  cbn [getCachedQueryId withHealthCheck].
  destruct (getCachedQueryId api query) as [[id |] | e];
    cbn -[awaitSubmission afterSubmission loadCached];
    [| by rewrite awaitSubmission_any_health | reflexivity].
  destruct (truthy id); cbn -[awaitSubmission afterSubmission loadCached];
    [| by rewrite awaitSubmission_any_health].
  change (loadCached (withHealthCheck answer api) id)
    with (@loadCached CR T api id).
  destruct (loadCached api id _) as [w1 [[] | e]];
    cbn -[awaitSubmission afterSubmission];
    [reflexivity | by rewrite awaitSubmission_any_health | reflexivity].
Qed.

End HealthCheck.

Section RunPropertiesRun.

Import ApiQuery Scenario ScenarioMore.

Lemma submitQuery_result_without_lessons_witness :
  state (submitQuery noContent "photosynthesis" None idle).1 =
    mkState false None (Some "q2") None None (Some "Query completed!").
Proof.
  exact (proj1 (submitQuery_result_without_lessons noContent "photosynthesis"
                  None idle (mkResult "q2" None None) eq_refl eq_refl
                  (or_intror eq_refl))).
Defined.

Lemma afterSubmission_keeps_settled_task_witness :
  taskTracker (atCatch lateRelated "photosynthesis" None idle).1 =
    updateTaskProgress FLASHCARDS 50
      (taskTracker (atResolution lateRelated "photosynthesis" None idle).1).
Proof.
  exact (proj1 (afterSubmission_keeps_settled_task lateRelated "photosynthesis"
                  None idle (mkResult "q3" (Some lessonsPayload) None)
                  lessonsPayload eq_refl eq_refl
                  (or_intror (or_intror eq_refl)))).
Defined.

End RunPropertiesRun.

(** ** [useQueryContent]: what a caller can rely on *)

Section ContentFetchProperties.

Import QueryContent.

Context {CR : Type}.
Variable api : Answers CR.

Local Ltac run_fetch :=
  unfold getFlashcards, getQuiz, request, setLoading, setError, bind,
    tryCatch, modify, await, ret.

(** X8.  [getFlashcards] and [getQuiz] never reject: each call fulfils with
    a payload or [null], leaves [loading = false], and returns [null]
    exactly when it leaves a message in [error]. *)
Theorem content_fetch_null_iff_error (queryId : string)
    (lessonIndex : option Z) (w : World) :
  (exists r,
     (getFlashcards api queryId lessonIndex w).2 = Fulfilled r /\
     loading (getFlashcards api queryId lessonIndex w).1 = false /\
     (r = None <-> is_Some (error (getFlashcards api queryId lessonIndex w).1))) /\
  (exists r,
     (getQuiz api queryId lessonIndex w).2 = Fulfilled r /\
     loading (getQuiz api queryId lessonIndex w).1 = false /\
     (r = None <-> is_Some (error (getQuiz api queryId lessonIndex w).1))).
Proof.
  split.
  - run_fetch.
    destruct lessonIndex as [index |]; cbn;
      [destruct (getFlashcardsByLesson api queryId index)
      | destruct (Services.getFlashcards api queryId)];
      cbn; eexists; (split; [reflexivity |]); (split; [reflexivity |]);
      split; try discriminate; try (intros [? [=]]); by eauto.
  - run_fetch.
    destruct (Services.getQuiz api queryId (default 0 lessonIndex));
      cbn; eexists; (split; [reflexivity |]); (split; [reflexivity |]);
      split; try discriminate; try (intros [? [=]]); by eauto.
Qed.

(** X9.  The two cells after a call depend on the answer of the API client
    only, not on what an earlier call left in them: from any two starting
    worlds a call returns the same value and leaves the same [loading] and
    [error]. *)
Theorem content_fetch_forgets_history (queryId : string)
    (lessonIndex : option Z) (w w' : World) :
  ((getFlashcards api queryId lessonIndex w).2 =
     (getFlashcards api queryId lessonIndex w').2 /\
   loading (getFlashcards api queryId lessonIndex w).1 =
     loading (getFlashcards api queryId lessonIndex w').1 /\
   error (getFlashcards api queryId lessonIndex w).1 =
     error (getFlashcards api queryId lessonIndex w').1) /\
  ((getQuiz api queryId lessonIndex w).2 =
     (getQuiz api queryId lessonIndex w').2 /\
   loading (getQuiz api queryId lessonIndex w).1 =
     loading (getQuiz api queryId lessonIndex w').1 /\
   error (getQuiz api queryId lessonIndex w).1 =
     error (getQuiz api queryId lessonIndex w').1).
Proof.
  split.
  - run_fetch.
    destruct lessonIndex as [index |]; cbn;
      [destruct (getFlashcardsByLesson api queryId index)
      | destruct (Services.getFlashcards api queryId)];
      by cbn.
  - run_fetch.
    by destruct (Services.getQuiz api queryId (default 0 lessonIndex)).
Qed.

End ContentFetchProperties.

(** ** The page shell: the lesson list and the start of an exploration *)

Section ShellProperties.

Import AppShell.

Variable getLastAccessedLesson : string -> Outcome Z.

(** Latest first. *)
Local Abbreviation byCreatedAt := (fun a b : LessonProgress => createdAt b - createdAt a).
Local Abbreviation notOlder := (fun a b : LessonProgress => createdAt b <= createdAt a).

Lemma insertBy_Permutation {A} (compare : A -> A -> Z) (x : A) (l : list A) :
  insertBy compare x l ≡ₚ x :: l.
Proof.
  induction l as [| y l IH]; cbn; [done |].
  destruct (decide (compare x y <= 0)); [done |].
  rewrite IH. apply Permutation_swap.
Qed.

Lemma sort_Permutation {A} (compare : A -> A -> Z) (l : list A) :
  sort compare l ≡ₚ l.
Proof.
  induction l as [| x l IH]; cbn; [done |].
  fold (sort compare l). by rewrite insertBy_Permutation, IH.
Qed.

Lemma insertBy_sorted (x : LessonProgress) (l : list LessonProgress) :
  StronglySorted notOlder l -> StronglySorted notOlder (insertBy byCreatedAt x l).
Proof.
  induction 1 as [| y l Hsorted IH Hall]; cbn.
  - by repeat constructor.
  - destruct (decide (createdAt y - createdAt x <= 0)) as [Hle | Hgt].
    + constructor; [by constructor |].
      constructor; [lia |].
      eapply Forall_impl; [exact Hall |]. cbn. intros z Hz. lia.
    + constructor; [exact IH |].
      rewrite insertBy_Permutation. constructor; [lia | exact Hall].
Qed.

Lemma sort_sorted (l : list LessonProgress) :
  StronglySorted notOlder (sort byCreatedAt l).
Proof.
  induction l as [| x l IH]; cbn; [constructor |].
  by apply insertBy_sorted.
Qed.

Lemma sort_of_sorted (l : list LessonProgress) :
  StronglySorted notOlder l -> sort byCreatedAt l = l.
Proof.
  induction 1 as [| x l Hsorted IH Hall]; cbn; [done |].
  fold (sort byCreatedAt l). rewrite IH.
  destruct l as [| y l]; cbn; [done |].
  destruct (decide (createdAt y - createdAt x <= 0)) as [Hle | Hgt]; [done |].
  apply Forall_cons in Hall as [Hy _]. lia.
Qed.

Lemma handleStartExploration_list (topic' : string) (category : option string)
    (fromLessonContinue : option bool) (s : Shell) :
  lessonProgressList
    (handleStartExploration getLastAccessedLesson topic' category
       fromLessonContinue s).1 = lessonProgressList s.
Proof.
  unfold handleStartExploration, setCurrentTopic, setCurrentStepIndex,
    setIsUserQuery, setCurrentState, bind, gets, modify, await, ret.
  cbn.
  destruct (find _ (lessonProgressList s)) as [existing |]; cbn; [| done].
  by destruct (getLastAccessedLesson (queryId existing)).
Qed.

(** X10.  With a current topic, [handleShowExplanation] only switches the
    view.  Without one it sorts the array of the lesson-progress hook in
    place: whatever the store answers, the array afterwards holds the same
    entries, latest first, and sorting it again changes nothing. *)
Theorem handleShowExplanation_reorders_list (s : Shell) :
  (currentTopic s <> "" ->
     handleShowExplanation getLastAccessedLesson s =
       (mkShell explanation (currentTopic s) (currentStepIndex s)
                (isUserQuery s) (lessonProgressList s),
        Fulfilled tt)) /\
  (currentTopic s = "" ->
     lessonProgressList (handleShowExplanation getLastAccessedLesson s).1 =
       sort byCreatedAt (lessonProgressList s) /\
     lessonProgressList (handleShowExplanation getLastAccessedLesson s).1
       ≡ₚ lessonProgressList s /\
     StronglySorted notOlder
       (lessonProgressList (handleShowExplanation getLastAccessedLesson s).1) /\
     sort byCreatedAt
       (lessonProgressList (handleShowExplanation getLastAccessedLesson s).1) =
       lessonProgressList (handleShowExplanation getLastAccessedLesson s).1).
Proof.
  split.
  - intros Htopic.
    unfold handleShowExplanation, setCurrentState, bind, gets, modify.
    cbv beta iota.
    destruct (currentTopic s) as [| c rest] eqn:Hs; [contradiction |].
    cbn [truthy]. cbv beta. by rewrite Hs.
  - intros Htopic.
    assert (Hlist :
      lessonProgressList (handleShowExplanation getLastAccessedLesson s).1 =
        sort byCreatedAt (lessonProgressList s)).
    { unfold handleShowExplanation, sortLessonProgressList, setCurrentState,
        bind, gets, modify.
      cbv beta iota. rewrite Htopic. cbn [truthy].
      destruct (decide (0 < Z.of_nat (length (lessonProgressList s))))
        as [Hlen | Hlen].
      - cbn [lessonProgressList currentState currentTopic currentStepIndex
             isUserQuery].
        destruct (sort byCreatedAt (lessonProgressList s))
          as [| mostRecent rest] eqn:Hsort; [reflexivity |].
        rewrite handleStartExploration_list. reflexivity.
      - destruct (lessonProgressList s); [reflexivity | cbn in Hlen; lia]. }
    rewrite Hlist.
    split; [reflexivity |].
    split; [apply sort_Permutation |].
    split; [apply sort_sorted |].
    apply sort_of_sorted, sort_sorted.
Qed.

(** X11.  [handleStartExploration] consults [fromLessonContinue] for a topic
    without a progress entry only, and the lesson-progress store for a topic
    with one only.  For a topic with an entry the flag makes no difference
    and a fulfilled run ends as a user query; for a topic without one the
    store makes no difference and the run starts at step 0 as a user query
    unless the flag is [true]. *)
Theorem handleStartExploration_flag (topic' : string)
    (category : option string) (s : Shell) :
  (is_Some (find (fun lesson => bool_decide (topic lesson = topic'))
              (lessonProgressList s)) ->
     forall flag flag',
       handleStartExploration getLastAccessedLesson topic' category flag s =
       handleStartExploration getLastAccessedLesson topic' category flag' s /\
       ((handleStartExploration getLastAccessedLesson topic' category flag s).2 =
          Fulfilled tt ->
        isUserQuery
          (handleStartExploration getLastAccessedLesson topic' category flag s).1 =
          true)) /\
  (find (fun lesson => bool_decide (topic lesson = topic'))
     (lessonProgressList s) = None ->
     forall flag (store : string -> Outcome Z),
       handleStartExploration store topic' category flag s =
         (mkShell explanation topic' 0 (negb (default false flag))
                  (lessonProgressList s),
          Fulfilled tt)).
Proof.
  split.
  - intros [existing Hfind] flag flag'.
    unfold handleStartExploration, setCurrentTopic, setCurrentStepIndex,
      setIsUserQuery, setCurrentState, bind, gets, modify, await, ret.
    cbn. rewrite Hfind.
    destruct (getLastAccessedLesson (queryId existing)); cbn;
      split; try reflexivity; discriminate.
  - intros Hfind flag store.
    unfold handleStartExploration, setCurrentTopic, setCurrentStepIndex,
      setIsUserQuery, setCurrentState, bind, gets, modify, await, ret.
    cbn. by rewrite Hfind.
Qed.

End ShellProperties.

Section ShellPropertiesRun.

Import AppShell Scenario.

Lemma handleShowExplanation_reorders_list_witness :
  lessonProgressList (handleShowExplanation lastAccessed atHome).1 =
    [ mkLesson "tides" "q2" 1700000500000;
      mkLesson "photosynthesis" "q1" 1700000000000 ].
Proof.
  exact (proj1 (proj2 (handleShowExplanation_reorders_list lastAccessed atHome)
                  eq_refl)).
Defined.

Lemma handleStartExploration_flag_witness :
  handleStartExploration lastAccessed "volcanoes" None (Some true) atHome =
    (mkShell explanation "volcanoes" 0 false (lessonProgressList atHome),
     Fulfilled tt).
Proof.
  exact (proj2 (handleStartExploration_flag lastAccessed "volcanoes" None atHome)
           eq_refl (Some true) lastAccessed).
Defined.

End ShellPropertiesRun.

(** ** The page shell: stepping through a lesson and getting back home *)

Section PagesProperties.

Import AppShell AppShellPages.

Context {E F : Type}.
Variable getLastAccessedLesson : string -> Outcome Z.
Variable markLessonAccessed : string -> Z -> Outcome unit.

Local Ltac run_pages :=
  unfold handleNextStep, handleStepNavigation, handleBackToHome,
    handleShowLibrary, handleShowExplore, handleShowLessons,
    handleGenerateFlashcards, handleStartQuiz, handleBackToExplanation,
    handleBackToFlashcards, trackLessonAccess, doMarkLessonAccessed,
    setCurrentExplanation, setCurrentFlashcards, onShell, setCurrentState,
    setCurrentTopic, setCurrentStepIndex, bind, gets, modify, await, ret.

(** X12.  [handleStepNavigation] always navigates and only then records:
    whatever [markLessonAccessed] answers, the shell shows the explanation
    view at the requested step with the explanation and the flashcards
    cleared and the topic and the lesson list untouched.  The store is
    called once, for the first entry whose topic is the current topic, and
    its answer is the handler's outcome; with no such entry it is not
    called. *)
Theorem handleStepNavigation_navigates_first (stepIndex : Z) (p : Pages E F) :
  shell (handleStepNavigation markLessonAccessed stepIndex p).1 =
    mkShell explanation (currentTopic (shell p)) stepIndex
      (isUserQuery (shell p)) (lessonProgressList (shell p)) /\
  currentExplanation (handleStepNavigation markLessonAccessed stepIndex p).1 = None /\
  currentFlashcards (handleStepNavigation markLessonAccessed stepIndex p).1 = [] /\
  match find (fun lesson => bool_decide (topic lesson = currentTopic (shell p)))
          (lessonProgressList (shell p)) with
  | Some existingLesson =>
      accessed (handleStepNavigation markLessonAccessed stepIndex p).1 =
        (accessed p ++ [(queryId existingLesson, stepIndex)])%list /\
      (handleStepNavigation markLessonAccessed stepIndex p).2 =
        markLessonAccessed (queryId existingLesson) stepIndex
  | None =>
      accessed (handleStepNavigation markLessonAccessed stepIndex p).1 = accessed p /\
      (handleStepNavigation markLessonAccessed stepIndex p).2 = Fulfilled tt
  end.
Proof.
  run_pages. cbn.
  destruct (find _ (lessonProgressList (shell p))) as [existing |]; cbn;
    [| by repeat split].
  by destruct (markLessonAccessed (queryId existing) stepIndex).
Qed.

(** X13.  [handleNextStep] is [handleStepNavigation] to the step after the
    current one, except that it keeps [currentExplanation]: the two end in
    the same outcome and in shells that differ in that cell only. *)
Theorem handleNextStep_keeps_explanation (p : Pages E F) :
  currentExplanation (handleNextStep markLessonAccessed p).1 =
    currentExplanation p /\
  (handleStepNavigation markLessonAccessed
     (currentStepIndex (shell p) + 1) p).2 =
    (handleNextStep markLessonAccessed p).2 /\
  (handleStepNavigation markLessonAccessed
     (currentStepIndex (shell p) + 1) p).1 =
    mkPages (shell (handleNextStep markLessonAccessed p).1) None
      (currentFlashcards (handleNextStep markLessonAccessed p).1)
      (accessed (handleNextStep markLessonAccessed p).1).
Proof.
  run_pages. cbn.
  destruct (find _ (lessonProgressList (shell p))) as [existing |]; cbn;
    [| by repeat split].
  by destruct (markLessonAccessed (queryId existing)
                 (currentStepIndex (shell p) + 1)).
Qed.

(** X14.  No page is a dead end.  From every view, handlers the page drawn
    for it was given lead back to the home view with the topic, the
    explanation, the flashcards and the step cleared: one press of the
    handler behind [onBack] or [onReturnHome] from every view but
    flashcards, and two presses of [onBack] from flashcards, whose page is
    given no handler that leads home directly. *)
Theorem home_is_reachable (p : Pages E F) :
  let cleared (q : Pages E F) :=
    currentState (shell q) = home /\ currentTopic (shell q) = "" /\
    currentStepIndex (shell q) = 0 /\ currentExplanation q = None /\
    currentFlashcards q = [] in
  (currentState (shell p) <> home ->
   currentState (shell p) <> flashcards ->
     offered (E := E) (F := F) (currentState (shell p)) PressBackToHome /\
     (handleBackToHome p).2 = Fulfilled tt /\
     cleared (handleBackToHome p).1) /\
  (currentState (shell p) = flashcards ->
     offered (E := E) (F := F) flashcards PressBackToExplanation /\
     (handleBackToExplanation p).2 = Fulfilled tt /\
     currentState (shell (handleBackToExplanation p).1) = explanation /\
     offered (E := E) (F := F) explanation PressBackToHome /\
     cleared (handleBackToHome (handleBackToExplanation p).1).1 /\
     forall press : Press E F,
       offered flashcards press ->
       currentState
         (shell (run getLastAccessedLesson markLessonAccessed press p).1) <> home).
Proof.
  intros cleared. split.
  - intros Hhome Hflash. split.
    + destruct (currentState (shell p)); try contradiction;
        first [ by exists "onBack"; cbn; auto 10
              | by exists "onReturnHome"; cbn; auto 10 ].
    + by repeat split.
  - intros Hflash. split; [by exists "onBack"; cbn; auto |].
    split; [done |]. split; [done |].
    split; [by exists "onBack"; cbn; auto |].
    split; [by repeat split |].
    intros press [prop Hin]. cbn in Hin.
    destruct Hin as [Hin | [Hin | [Hin | []]]];
      destruct press; try discriminate Hin; cbn; discriminate.
Qed.

End PagesProperties.

Section PagesPropertiesRun.

Import AppShell AppShellPages Scenario ScenarioMore.

Lemma home_is_reachable_witness :
  currentTopic (shell (handleBackToHome inQuiz).1) = "".
Proof.
  pose proof (home_is_reachable (fun _ => Fulfilled 0) (fun _ _ => Fulfilled tt)
                inQuiz) as [Hback _].
  destruct (Hback ltac:(discriminate) ltac:(discriminate))
    as (_ & _ & _ & Htopic & _).
  exact Htopic.
Defined.

End PagesPropertiesRun.

(** ** The navigation bar *)

Section NavbarProperties.

Import Navbar.

(** X15.  Whatever the props, the bar draws the five items in their order,
    each with a click that passes its own id on; it highlights the item
    whose id is the current page (the home item when the prop is left out)
    and no other, so at most one item, and none for a page that is not in
    the bar; only the explanation item carries a title and the hint box;
    and the icon follows [isOnline], which counts as true when left out. *)
Theorem Navbar_highlights_current_page (currentPage : option string)
    (isOnline : option bool) :
  map key (Navbar currentPage isOnline).1 =
    ["home"; "explanation"; "explore"; "lessons"; "library"] /\
  map click (Navbar currentPage isOnline).1 =
    map key (Navbar currentPage isOnline).1 /\
  (forall b, In b (Navbar currentPage isOnline).1 ->
     (highlighted b = true <-> key b = default "home" currentPage) /\
     (is_Some (title b) <-> key b = "explanation") /\
     (is_Some (hint b) <-> key b = "explanation")) /\
  (length (List.filter highlighted (Navbar currentPage isOnline).1) <= 1)%nat /\
  (Navbar currentPage isOnline).2 =
    (if default true isOnline then Wifi else WifiOff).
Proof.
  unfold Navbar. cbn [fst snd].
  generalize (default "home" currentPage). intros page.
  split; [reflexivity |]. split; [reflexivity |].
  split; [| split; [| reflexivity]].
  - intros b Hb. cbn [map navItems id label] in Hb.
    destruct (String.eqb_spec page "home") as [Hh | Hh];
      destruct (String.eqb_spec page "explanation") as [He | He];
      destruct (String.eqb_spec page "explore") as [Hx | Hx];
      destruct (String.eqb_spec page "lessons") as [Hl | Hl];
      destruct (String.eqb_spec page "library") as [Hy | Hy];
      try congruence;
      destruct Hb as [<- | [<- | [<- | [<- | [<- | []]]]]]; cbn;
      (repeat split; try congruence; try discriminate;
       try (intros [? [=]]); try (by eexists)).
  - cbn [map navItems id label].
    destruct (String.eqb_spec page "home") as [Hh | Hh];
      destruct (String.eqb_spec page "explanation") as [He | He];
      destruct (String.eqb_spec page "explore") as [Hx | Hx];
      destruct (String.eqb_spec page "lessons") as [Hl | Hl];
      destruct (String.eqb_spec page "library") as [Hy | Hy];
      try congruence; vm_compute; lia.
Qed.

End NavbarProperties.

(** ** [useApiQuery]: a stream of progress texts *)

Section ProgressStream.

Import ApiQuery ApiQueryRuns.

Context {CR T : Type} `{!TaskTracker T}.

Lemma onProgress_progress (text : string) (w : World CR T) :
  progress (state (onProgress text w).1) = Some text.
Proof.
  unfold onProgress, doUpdateTaskProgress, doMarkTaskCompleted,
    doMarkTaskFailed, doGetTaskByType, onTracker, called, setState, bind,
    modify, gets, ret.
  cbn.
  repeat (match goal with
          | |- context [if includes ?s ?k then _ else _] =>
              destruct (includes s k)
          | |- context [decide ?P] => destruct (decide P)
          end; cbn); reflexivity.
Qed.

(** X16.  Progress texts are never accumulated: after any stream of
    callbacks [progress] holds the last text received (or what it held, for
    an empty stream).  The callbacks leave [loading], [error] and the
    content cells alone, set no timer, and make no call to
    [submitQueryAndWait] or [saveQueryMapping]. *)
Theorem progress_holds_last_text (texts : list string) (w : World CR T) :
  (forEach onProgress texts w).2 = Fulfilled tt /\
  progress (state (forEach onProgress texts w).1) =
    match last texts with
    | Some text => Some text
    | None => progress (state w)
    end /\
  keeps w (forEach onProgress texts w).1 /\
  timers (forEach onProgress texts w).1 = timers w /\
  count isSubmission (calls (forEach onProgress texts w).1) =
    count isSubmission (calls w) /\
  count isSave (calls (forEach onProgress texts w).1) = count isSave (calls w).
Proof.
  destruct (forEach_onProgress_runs texts w) as [Hout Hkeeps].
  destruct (forEach_onProgress_calls isSubmission
              (fun c H _ => H) texts w) as [Hsub Htimers].
  destruct (forEach_onProgress_calls isSave (fun c _ H => H) texts w)
    as [Hsave _].
  repeat split; try assumption; try apply Hkeeps.
  clear. revert w. induction texts as [| text texts IH]; intros w; [done |].
  cbn [forEach]. unfold bind.
  pose proof (onProgress_progress text w) as Hp.
  destruct (onProgress_runs text w) as [Hout _].
  destruct (onProgress text w) as [w1 o]; cbn in Hp, Hout; subst o.
  rewrite IH.
  destruct texts as [| text' texts]; [exact Hp |].
  change (last (text :: text' :: texts)) with (last (text' :: texts)).
  destruct (last (text' :: texts)) eqn:Hlast; [reflexivity |].
  apply last_None in Hlast. discriminate.
Qed.

End ProgressStream.
